(** * Patrol tracker backend: a shallow embedding of [backend/server.py]

    The request handlers of the FastAPI application are embedded as
    computations over an explicit document store.  Collections are lists
    of documents in storage (insertion) order; the Motor calls the
    handlers make ([find_one], [find(...).to_list(n)], [insert_one],
    [delete_one], [update_one], [count_documents]) are list functions.
    Values produced outside the program (uuid4 identifiers, the clock,
    the bcrypt salt) are arguments of the handlers.

    Conventions of the embedding:
    - a handler receives [current_user], the document [get_current_user]
      resolved from the bearer token;
    - a stored document is a non-empty dict, so the tests [if existing:],
      [if not assignment:], [if route:] and [if point:] are tests for
      [Some]/[None];
    - timestamps are kept in their stored ISO-8601 form, and the
      [fromisoformat] loops of the listing handlers, which change the
      representation of [created_at] only, are not reproduced;
    - an exception that is not an [HTTPException] and that no handler
      catches ends the request with the framework's answer, status 500
      "Internal Server Error"; it is embedded as that answer;
    - requests are handled one at a time. *)

From Stdlib Require Import String DecimalString List Permutation Arith Lia.
From Stdlib Require Import Bool Floats.
Import ListNotations.
Open Scope string_scope.

Set Implicit Arguments.

(** ** Models (the pydantic classes) *)

Module User.
Record t := mk {
  id : string;
  username : string;
  password_hash : string;
  full_name : string;
  role : string;
  badge_number : option string;
  created_at : string
}.
End User.

Module UserCreate.
Record t := mk {
  username : string;
  password : string;
  full_name : string;
  role : string;
  badge_number : option string
}.
End UserCreate.

Module UserLogin.
Record t := mk {
  username : string;
  password : string
}.
End UserLogin.

Module UserResponse.
Record t := mk {
  id : string;
  username : string;
  full_name : string;
  role : string;
  badge_number : option string
}.
End UserResponse.

Module TokenResponse.
Record t := mk {
  access_token : string;
  token_type : string;
  user : UserResponse.t
}.
End TokenResponse.

Module PatrolPoint.
Record t := mk {
  id : string;
  name : string;
  description : string;
  address : string;
  latitude : option float;
  longitude : option float;
  created_at : string
}.
End PatrolPoint.

Module PatrolPointCreate.
Record t := mk {
  name : string;
  description : string;
  address : string;
  latitude : option float;
  longitude : option float
}.
End PatrolPointCreate.

Module Route.
Record t := mk {
  id : string;
  name : string;
  description : string;
  patrol_point_ids : list string;
  created_at : string
}.
End Route.

Module RouteCreate.
Record t := mk {
  name : string;
  description : string;
  patrol_point_ids : list string
}.
End RouteCreate.

Module RouteAssignment.
Record t := mk {
  id : string;
  officer_id : string;
  route_id : string;
  date : string;
  status : string;
  created_at : string
}.

(** The [$set] of an [update_one] on the [status] field. *)
Definition set_status (s : string) (a : t) : t :=
  mk (id a) (officer_id a) (route_id a) (date a) s (created_at a).
End RouteAssignment.

Module RouteAssignmentCreate.
Record t := mk {
  officer_id : string;
  route_id : string;
  date : string
}.
End RouteAssignmentCreate.

Module Attendance.
Record t := mk {
  id : string;
  officer_id : string;
  route_assignment_id : string;
  patrol_point_id : string;
  check_in_time : string;
  notes : option string
}.
End Attendance.

Module AttendanceCreate.
Record t := mk {
  route_assignment_id : string;
  patrol_point_id : string;
  notes : option string
}.
End AttendanceCreate.

(** ** The document store *)

Module Mongo.
Section Collection.
Variable A : Type.

(** [find_one(q)]: the first document, in storage order, matching [q]. *)
Definition find_one (q : A -> bool) (c : list A) : option A :=
  List.find q c.

(** [find(q).to_list(n)]: the matching documents in storage order, at
    most [n] of them. *)
Definition find_to_list (q : A -> bool) (n : nat) (c : list A) : list A :=
  firstn n (filter q c).

(** [insert_one(doc)] appends. *)
Definition insert_one (doc : A) (c : list A) : list A :=
  c ++ [doc].

(** [count_documents(q)] (no cap). *)
Definition count_documents (q : A -> bool) (c : list A) : nat :=
  length (filter q c).

(** [delete_one(q)] removes the first match; the second component is
    [deleted_count]. *)
Fixpoint delete_one (q : A -> bool) (c : list A) : list A * nat :=
  match c with
  | [] => ([], 0)
  | d :: c' =>
      if q d then (c', 1)
      else let (r, n) := delete_one q c' in (d :: r, n)
  end.

(** [update_one(q, upd)] rewrites the first match and nothing else. *)
Fixpoint update_one (q : A -> bool) (upd : A -> A) (c : list A) : list A :=
  match c with
  | [] => []
  | d :: c' => if q d then upd d :: c' else d :: update_one q upd c'
  end.
End Collection.
End Mongo.

Module Db.
Record t := mk {
  users : list User.t;
  patrol_points : list PatrolPoint.t;
  routes : list Route.t;
  route_assignments : list RouteAssignment.t;
  attendance : list Attendance.t
}.

(** Replacing one collection leaves the four others as they are. *)
Definition set_users (f : list User.t -> list User.t) (db : t) : t :=
  mk (f (users db)) (patrol_points db) (routes db)
     (route_assignments db) (attendance db).

Definition set_patrol_points
    (f : list PatrolPoint.t -> list PatrolPoint.t) (db : t) : t :=
  mk (users db) (f (patrol_points db)) (routes db)
     (route_assignments db) (attendance db).

Definition set_routes (f : list Route.t -> list Route.t) (db : t) : t :=
  mk (users db) (patrol_points db) (f (routes db))
     (route_assignments db) (attendance db).

Definition set_route_assignments
    (f : list RouteAssignment.t -> list RouteAssignment.t) (db : t) : t :=
  mk (users db) (patrol_points db) (routes db)
     (f (route_assignments db)) (attendance db).

Definition set_attendance
    (f : list Attendance.t -> list Attendance.t) (db : t) : t :=
  mk (users db) (patrol_points db) (routes db)
     (route_assignments db) (f (attendance db)).
End Db.

(** ** Handlers as store transformers that may raise

    A handler runs against the store and ends either with a value or with
    an [HTTPException].  The store it leaves behind is returned in both
    cases: a write made before a [raise] is not rolled back. *)

Record HTTPException := mkHTTPException {
  status_code : nat;
  detail : string
}.

Inductive outcome (A : Type) :=
| Returns (a : A)
| Raises (e : HTTPException).
Arguments Raises {A} e.

Definition handler (A : Type) := Db.t -> Db.t * outcome A.

Definition ret {A} (a : A) : handler A := fun db => (db, Returns a).

Definition raise {A} (code : nat) (msg : string) : handler A :=
  fun db => (db, Raises (mkHTTPException code msg)).

Definition bind {A B} (m : handler A) (k : A -> handler B) : handler B :=
  fun db =>
    match m db with
    | (db', Returns a) => k a db'
    | (db', Raises e) => (db', Raises e)
    end.

(** A read of the store, and a write to it. *)
Definition query {A} (f : Db.t -> A) : handler A :=
  fun db => (db, Returns (f db)).

Definition write (f : Db.t -> Db.t) : handler unit :=
  fun db => (f db, Returns tt).

Declare Scope handler_scope.
Delimit Scope handler_scope with handler.
Notation "x <- m ;; k" := (bind m (fun x => k))
  (at level 61, m at next level, right associativity) : handler_scope.
Notation "m ;;; k" := (bind m (fun _ => k))
  (at level 61, right associativity) : handler_scope.
Open Scope handler_scope.

Definition final_db {A} (r : Db.t * outcome A) : Db.t := fst r.
Definition result {A} (r : Db.t * outcome A) : outcome A := snd r.

(** ** The application *)

(** What [get_today_assignment] returns: the sentinel message, or the
    assignment with its route and the annotated checkpoints.  A listed
    checkpoint is the stored document with the extra key [completed]. *)
Module PatrolPointView.
Record t := mk {
  point : PatrolPoint.t;
  completed : bool
}.
End PatrolPointView.

Inductive TodayResponse :=
| NoRoute (message : string)
| Today (assignment : RouteAssignment.t) (route : Route.t)
        (patrol_points : list PatrolPointView.t).

(** What [jwt.decode] does with a token: it yields the payload, of which
    the handlers read the key [sub] alone ([payload.get("sub")], [None]
    when the key is absent), or raises one of its two exceptions. *)
Inductive jwt_result :=
| Payload (sub : option string)
| ExpiredSignatureError
| InvalidTokenError.

(** A row of the admin's attendance report. *)
Module AttendanceReport.
Record t := mk {
  id : string;
  officer_name : string;
  badge_number : option string;
  patrol_point_name : string;
  patrol_point_address : string;
  check_in_time : string;
  notes : option string;
  date : option string
}.
End AttendanceReport.

(** A [for] loop that appends one result per element, each iteration
    running against the store the previous one left. *)
Fixpoint for_each {A B} (body : A -> handler B) (l : list A)
  : handler (list B) :=
  match l with
  | [] => ret []
  | x :: rest =>
      y <- body x ;;
      ys <- for_each body rest ;;
      ret (y :: ys)
  end.

(** What [pwd_context.verify] does with a password and a stored hash: it
    answers whether they match, or it raises (the bcrypt scheme refuses a
    password that holds a NUL byte). *)
Inductive verify_result :=
| Verifies (ok : bool)
| VerifyRaises.

Section Server.
(** The credential primitives are opaque: [pwd_context.hash] (salted, so
    a function of the salt too), [pwd_context.verify], which answers or
    raises, and [jwt.encode] of the subject with the expiry computed from
    the clock. *)
Variable get_password_hash : string -> string -> string.
Variable verify_password : string -> string -> verify_result.
Variable create_access_token : string -> string -> string.

(** [jwt.decode] of a token at a time of the clock, opaque as well. *)
Variable jwt_decode : string -> string -> jwt_result.

(** The dependency every protected route resolves its caller with.  The
    two [except] clauses catch the exceptions of [jwt.decode]; the
    [HTTPException]s raised inside the [try] pass through them. *)
Definition get_current_user (now credentials : string) : handler User.t :=
  match jwt_decode credentials now with
  | Payload user_id =>
      match user_id with
      | None => raise 401 "Invalid authentication credentials"
      | Some user_id =>
          user <- query (fun db =>
            Mongo.find_one (fun u => User.id u =? user_id) (Db.users db)) ;;
          match user with
          | None => raise 401 "User not found"
          | Some user => ret user
          end
      end
  | ExpiredSignatureError => raise 401 "Token has expired"
  | InvalidTokenError => raise 401 "Invalid token"
  end.

(** *** Auth routes *)

(** [fresh_id] and [now] are the defaults of [User.id] and
    [User.created_at]; [salt] is the randomness of the hash. *)
Definition register (fresh_id now salt : string) (user_data : UserCreate.t)
  : handler UserResponse.t :=
  existing <- query (fun db =>
    Mongo.find_one
      (fun u => User.username u =? UserCreate.username user_data)
      (Db.users db)) ;;
  match existing with
  | Some _ => raise 400 "Username already exists"
  | None =>
      let password_hash :=
        get_password_hash salt (UserCreate.password user_data) in
      let user :=
        User.mk fresh_id
                (UserCreate.username user_data)
                password_hash
                (UserCreate.full_name user_data)
                (UserCreate.role user_data)
                (UserCreate.badge_number user_data)
                now in
      write (Db.set_users (Mongo.insert_one user)) ;;;
      ret (UserResponse.mk (User.id user) (User.username user)
                           (User.full_name user) (User.role user)
                           (User.badge_number user))
  end.

(** [not user or not verify_password(...)]: the password is verified only
    when the username has resolved, and no [try] surrounds the call. *)
Definition login (now : string) (login_data : UserLogin.t)
  : handler TokenResponse.t :=
  user <- query (fun db =>
    Mongo.find_one
      (fun u => User.username u =? UserLogin.username login_data)
      (Db.users db)) ;;
  match user with
  | None => raise 401 "Invalid username or password"
  | Some user =>
      match verify_password (UserLogin.password login_data)
                            (User.password_hash user) with
      | VerifyRaises => raise 500 "Internal Server Error"
      | Verifies ok =>
          if negb ok
          then raise 401 "Invalid username or password"
          else
            let access_token := create_access_token (User.id user) now in
            ret (TokenResponse.mk access_token "bearer"
                   (UserResponse.mk (User.id user) (User.username user)
                                    (User.full_name user) (User.role user)
                                    (User.badge_number user)))
      end
  end.

Definition get_me (current_user : User.t) : handler UserResponse.t :=
  ret (UserResponse.mk (User.id current_user) (User.username current_user)
                       (User.full_name current_user) (User.role current_user)
                       (User.badge_number current_user)).

(** *** Patrol points *)

Definition create_patrol_point (fresh_id now : string)
    (point_data : PatrolPointCreate.t) (current_user : User.t)
  : handler PatrolPoint.t :=
  if negb (User.role current_user =? "admin")
  then raise 403 "Only admins can create patrol points"
  else
    let point :=
      PatrolPoint.mk fresh_id
                     (PatrolPointCreate.name point_data)
                     (PatrolPointCreate.description point_data)
                     (PatrolPointCreate.address point_data)
                     (PatrolPointCreate.latitude point_data)
                     (PatrolPointCreate.longitude point_data)
                     now in
    write (Db.set_patrol_points (Mongo.insert_one point)) ;;;
    ret point.

Definition get_patrol_points (current_user : User.t)
  : handler (list PatrolPoint.t) :=
  query (fun db =>
    Mongo.find_to_list (fun _ => true) 1000 (Db.patrol_points db)).

Definition delete_patrol_point (point_id : string) (current_user : User.t)
  : handler string :=
  if negb (User.role current_user =? "admin")
  then raise 403 "Only admins can delete patrol points"
  else
    deleted_count <- (fun db =>
      let (c, n) :=
        Mongo.delete_one (fun p => PatrolPoint.id p =? point_id)
                         (Db.patrol_points db) in
      (Db.set_patrol_points (fun _ => c) db, Returns n)) ;;
    if (deleted_count =? 0)%nat
    then raise 404 "Patrol point not found"
    else ret "Patrol point deleted successfully".

(** *** Routes *)

Definition create_route (fresh_id now : string)
    (route_data : RouteCreate.t) (current_user : User.t)
  : handler Route.t :=
  if negb (User.role current_user =? "admin")
  then raise 403 "Only admins can create routes"
  else
    let route :=
      Route.mk fresh_id
               (RouteCreate.name route_data)
               (RouteCreate.description route_data)
               (RouteCreate.patrol_point_ids route_data)
               now in
    write (Db.set_routes (Mongo.insert_one route)) ;;;
    ret route.

Definition get_routes (current_user : User.t) : handler (list Route.t) :=
  query (fun db => Mongo.find_to_list (fun _ => true) 1000 (Db.routes db)).

Definition delete_route (route_id : string) (current_user : User.t)
  : handler string :=
  if negb (User.role current_user =? "admin")
  then raise 403 "Only admins can delete routes"
  else
    deleted_count <- (fun db =>
      let (c, n) :=
        Mongo.delete_one (fun r => Route.id r =? route_id) (Db.routes db) in
      (Db.set_routes (fun _ => c) db, Returns n)) ;;
    if (deleted_count =? 0)%nat
    then raise 404 "Route not found"
    else ret "Route deleted successfully".

(** *** Route assignments *)

Definition create_route_assignment (fresh_id now : string)
    (assignment_data : RouteAssignmentCreate.t) (current_user : User.t)
  : handler RouteAssignment.t :=
  if negb (User.role current_user =? "admin")
  then raise 403 "Only admins can assign routes"
  else
    let assignment :=
      RouteAssignment.mk fresh_id
                         (RouteAssignmentCreate.officer_id assignment_data)
                         (RouteAssignmentCreate.route_id assignment_data)
                         (RouteAssignmentCreate.date assignment_data)
                         "assigned"
                         now in
    write (Db.set_route_assignments (Mongo.insert_one assignment)) ;;;
    ret assignment.

(** The [query] dict of [get_route_assignments]: empty, or with the
    single key [officer_id] when the caller is an officer. *)
Definition assignments_query (current_user : User.t)
  : RouteAssignment.t -> bool :=
  if User.role current_user =? "officer"
  then fun a => RouteAssignment.officer_id a =? User.id current_user
  else fun _ => true.

Definition get_route_assignments (current_user : User.t)
  : handler (list RouteAssignment.t) :=
  query (fun db =>
    Mongo.find_to_list (assignments_query current_user) 1000
                       (Db.route_assignments db)).

(** The loop that orders the fetched points by the route's sequence.
    [next(..., None)] is the first fetched point with the id; an id
    with none is skipped.  The flag written into the point depends on
    [point_id] alone, which is the point's own id, so a point reached
    twice receives the same flag both times. *)
Fixpoint order_points (patrol_point_ids : list string)
    (patrol_points : list PatrolPoint.t) (completed_point_ids : list string)
  : list PatrolPointView.t :=
  match patrol_point_ids with
  | [] => []
  | point_id :: rest =>
      match List.find (fun p => PatrolPoint.id p =? point_id) patrol_points with
      | Some point =>
          PatrolPointView.mk point
            (existsb (String.eqb point_id) completed_point_ids)
          :: order_points rest patrol_points completed_point_ids
      | None => order_points rest patrol_points completed_point_ids
      end
  end.

(** [today] is the server clock's UTC date, formatted [%Y-%m-%d]. *)
Definition get_today_assignment (today : string) (current_user : User.t)
  : handler TodayResponse :=
  if negb (User.role current_user =? "officer")
  then raise 403 "Only officers can access this endpoint"
  else
    assignment <- query (fun db =>
      Mongo.find_one
        (fun a => (RouteAssignment.officer_id a =? User.id current_user)
                  && (RouteAssignment.date a =? today))
        (Db.route_assignments db)) ;;
    match assignment with
    | None => ret (NoRoute "No route assigned for today")
    | Some assignment =>
        route <- query (fun db =>
          Mongo.find_one
            (fun r => Route.id r =? RouteAssignment.route_id assignment)
            (Db.routes db)) ;;
        match route with
        | None => raise 404 "Route not found"
        | Some route =>
            patrol_points <- query (fun db =>
              Mongo.find_to_list
                (fun p => existsb (String.eqb (PatrolPoint.id p))
                                  (Route.patrol_point_ids route))
                1000 (Db.patrol_points db)) ;;
            attendance_records <- query (fun db =>
              Mongo.find_to_list
                (fun att => Attendance.route_assignment_id att
                            =? RouteAssignment.id assignment)
                1000 (Db.attendance db)) ;;
            let completed_point_ids :=
              map Attendance.patrol_point_id attendance_records in
            let ordered_points :=
              order_points (Route.patrol_point_ids route) patrol_points
                           completed_point_ids in
            ret (Today assignment route ordered_points)
        end
    end.

(** *** Attendance *)

Definition mark_attendance (fresh_id now : string)
    (attendance_data : AttendanceCreate.t) (current_user : User.t)
  : handler Attendance.t :=
  if negb (User.role current_user =? "officer")
  then raise 403 "Only officers can mark attendance"
  else
    assignment <- query (fun db =>
      Mongo.find_one
        (fun a => RouteAssignment.id a
                  =? AttendanceCreate.route_assignment_id attendance_data)
        (Db.route_assignments db)) ;;
    match assignment with
    | None => raise 404 "Route assignment not found"
    | Some assignment =>
        existing <- query (fun db =>
          Mongo.find_one
            (fun att =>
               (Attendance.route_assignment_id att
                =? AttendanceCreate.route_assignment_id attendance_data)
               && (Attendance.patrol_point_id att
                   =? AttendanceCreate.patrol_point_id attendance_data))
            (Db.attendance db)) ;;
        match existing with
        | Some _ => raise 400 "Attendance already marked for this point"
        | None =>
            let attendance :=
              Attendance.mk
                fresh_id
                (User.id current_user)
                (AttendanceCreate.route_assignment_id attendance_data)
                (AttendanceCreate.patrol_point_id attendance_data)
                now
                (AttendanceCreate.notes attendance_data) in
            write (Db.set_attendance (Mongo.insert_one attendance)) ;;;
            route <- query (fun db =>
              Mongo.find_one
                (fun r => Route.id r =? RouteAssignment.route_id assignment)
                (Db.routes db)) ;;
            match route with
            | Some route =>
                attendance_count <- query (fun db =>
                  Mongo.count_documents
                    (fun att =>
                       Attendance.route_assignment_id att
                       =? AttendanceCreate.route_assignment_id attendance_data)
                    (Db.attendance db)) ;;
                if (length (Route.patrol_point_ids route)
                    <=? attendance_count)%nat
                then
                  write (Db.set_route_assignments
                    (Mongo.update_one
                       (fun a =>
                          RouteAssignment.id a
                          =? AttendanceCreate.route_assignment_id
                               attendance_data)
                       (RouteAssignment.set_status "completed")))
                else if (0 <? attendance_count)%nat
                then
                  write (Db.set_route_assignments
                    (Mongo.update_one
                       (fun a =>
                          RouteAssignment.id a
                          =? AttendanceCreate.route_assignment_id
                               attendance_data)
                       (RouteAssignment.set_status "in_progress")))
                else ret tt
            | None => ret tt
            end ;;;
            ret attendance
        end
    end.

(** The body of the enrichment loop: three lookups for one record, with
    the placeholders for what does not resolve. *)
Definition enrich (record : Attendance.t) : handler AttendanceReport.t :=
  officer <- query (fun db =>
    Mongo.find_one (fun u => User.id u =? Attendance.officer_id record)
                   (Db.users db)) ;;
  patrol_point <- query (fun db =>
    Mongo.find_one
      (fun p => PatrolPoint.id p =? Attendance.patrol_point_id record)
      (Db.patrol_points db)) ;;
  assignment <- query (fun db =>
    Mongo.find_one
      (fun a => RouteAssignment.id a
                =? Attendance.route_assignment_id record)
      (Db.route_assignments db)) ;;
  ret (AttendanceReport.mk
         (Attendance.id record)
         (match officer with
          | Some officer => User.full_name officer
          | None => "Unknown"
          end)
         (match officer with
          | Some officer => User.badge_number officer
          | None => None
          end)
         (match patrol_point with
          | Some patrol_point => PatrolPoint.name patrol_point
          | None => "Unknown"
          end)
         (match patrol_point with
          | Some patrol_point => PatrolPoint.address patrol_point
          | None => "Unknown"
          end)
         (Attendance.check_in_time record)
         (Attendance.notes record)
         (match assignment with
          | Some assignment => Some (RouteAssignment.date assignment)
          | None => None
          end)).

Definition get_all_attendance (current_user : User.t)
  : handler (list AttendanceReport.t) :=
  if negb (User.role current_user =? "admin")
  then raise 403 "Only admins can view all attendance"
  else
    attendance_records <- query (fun db =>
      Mongo.find_to_list (fun _ => true) 10000 (Db.attendance db)) ;;
    for_each enrich attendance_records.

(** *** Officers *)

(** The [UserResponse] built from the keys of a document fetched
    without its [password_hash]; the key [created_at] is ignored. *)
Definition user_response (u : User.t) : UserResponse.t :=
  UserResponse.mk (User.id u) (User.username u) (User.full_name u)
                  (User.role u) (User.badge_number u).

Definition get_officers (current_user : User.t)
  : handler (list UserResponse.t) :=
  if negb (User.role current_user =? "admin")
  then raise 403 "Only admins can view officers"
  else
    officers <- query (fun db =>
      Mongo.find_to_list (fun u => User.role u =? "officer") 1000
                         (Db.users db)) ;;
    ret (map user_response officers).
End Server.

(** ** Filters and observations the statements are written with *)

(** The filter [register] and [login] query with. *)
Definition user_with_username (username : string) (u : User.t) : bool :=
  User.username u =? username.

(** The three filters [mark_attendance] queries with. *)
Definition assignment_with_id (assignment_id : string) (a : RouteAssignment.t)
  : bool :=
  RouteAssignment.id a =? assignment_id.

Definition route_with_id (route_id : string) (r : Route.t) : bool :=
  Route.id r =? route_id.

Definition attendance_of (assignment_id : string) (att : Attendance.t) : bool :=
  Attendance.route_assignment_id att =? assignment_id.

Definition attendance_at (assignment_id point_id : string) (att : Attendance.t)
  : bool :=
  (Attendance.route_assignment_id att =? assignment_id)
  && (Attendance.patrol_point_id att =? point_id).

(** The document [mark_attendance] builds from the request. *)
Definition attendance_doc (fresh_id now : string)
    (attendance_data : AttendanceCreate.t) (current_user : User.t)
  : Attendance.t :=
  Attendance.mk fresh_id (User.id current_user)
    (AttendanceCreate.route_assignment_id attendance_data)
    (AttendanceCreate.patrol_point_id attendance_data)
    now (AttendanceCreate.notes attendance_data).

(** The status of the assignment an id resolves to. *)
Definition status_of (assignment_id : string) (db : Db.t) : option string :=
  option_map RouteAssignment.status
    (Mongo.find_one (assignment_with_id assignment_id)
                    (Db.route_assignments db)).

Definition point_with_id (point_id : string) (p : PatrolPoint.t) : bool :=
  PatrolPoint.id p =? point_id.

(** The filters of [get_today_assignment]. *)
Definition todays_assignment (officer_id today : string)
    (a : RouteAssignment.t) : bool :=
  (RouteAssignment.officer_id a =? officer_id)
  && (RouteAssignment.date a =? today).

Definition point_on_route (route : Route.t) (p : PatrolPoint.t) : bool :=
  existsb (String.eqb (PatrolPoint.id p)) (Route.patrol_point_ids route).

(** Whether an attendance document is stored for the pair. *)
Definition attended (assignment_id point_id : string) (db : Db.t) : bool :=
  existsb (attendance_at assignment_id point_id) (Db.attendance db).

(** Whether a checkpoint id resolves to a stored patrol point. *)
Definition resolves (db : Db.t) (point_id : string) : bool :=
  existsb (point_with_id point_id) (Db.patrol_points db).

(** A run that raises with a given status code and leaves the store as
    it found it. *)
Definition refused {A} (code : nat) (db : Db.t) (r : Db.t * outcome A)
  : Prop :=
  final_db r = db
  /\ exists e, result r = Raises e /\ status_code e = code.

Definition user_with_id (user_id : string) (u : User.t) : bool :=
  User.id u =? user_id.

(** The (assignment, checkpoint) pair an attendance document is for. *)
Definition pair_of (att : Attendance.t) : string * string :=
  (Attendance.route_assignment_id att, Attendance.patrol_point_id att).

(** An assignment with its status blanked: what is left to compare when
    the status is set aside. *)
Definition without_status (a : RouteAssignment.t) : RouteAssignment.t :=
  RouteAssignment.set_status "" a.

(** The report row of a record, from the three lookups in a store. *)
Definition report_row (db : Db.t) (record : Attendance.t)
  : AttendanceReport.t :=
  let officer :=
    Mongo.find_one (user_with_id (Attendance.officer_id record))
                   (Db.users db) in
  let patrol_point :=
    Mongo.find_one (point_with_id (Attendance.patrol_point_id record))
                   (Db.patrol_points db) in
  let assignment :=
    Mongo.find_one (assignment_with_id (Attendance.route_assignment_id record))
                   (Db.route_assignments db) in
  AttendanceReport.mk
    (Attendance.id record)
    (match officer with Some u => User.full_name u | None => "Unknown" end)
    (match officer with Some u => User.badge_number u | None => None end)
    (match patrol_point with
     | Some p => PatrolPoint.name p | None => "Unknown" end)
    (match patrol_point with
     | Some p => PatrolPoint.address p | None => "Unknown" end)
    (Attendance.check_in_time record)
    (Attendance.notes record)
    (match assignment with
     | Some a => Some (RouteAssignment.date a) | None => None end).

(** ** Sequences of check-ins *)

(** Run a handler for its effect on the store. *)
Definition after {A} (h : handler A) (db : Db.t) : Db.t := final_db (h db).

(** The caller checks in at each of [point_ids] in turn, against one
    assignment; the i-th attendance document gets the id [fresh i]. *)
Fixpoint patrol (fresh : nat -> string) (now : string) (caller : User.t)
    (assignment_id : string) (point_ids : list string) (i : nat) (db : Db.t)
  : Db.t :=
  match point_ids with
  | [] => db
  | point_id :: rest =>
      patrol fresh now caller assignment_id rest (S i)
        (after (mark_attendance (fresh i) now
                  (AttendanceCreate.mk assignment_id point_id None) caller)
           db)
  end.

(** What holds of a store all along a patrol: the assignment resolves,
    to a document that names the route, and the route resolves. *)
Definition on_patrol (assignment_id : string) (route : Route.t) (db : Db.t)
  : Prop :=
  exists a,
    Mongo.find_one (assignment_with_id assignment_id)
                   (Db.route_assignments db) = Some a
    /\ Mongo.find_one (route_with_id (RouteAssignment.route_id a))
                      (Db.routes db) = Some route.

(** The number of attendance documents stored for an assignment. *)
Definition attendance_count (assignment_id : string) (db : Db.t) : nat :=
  Mongo.count_documents (attendance_of assignment_id) (Db.attendance db).

(** The status the recomputation writes for [n] attendance documents on a
    route of [k] checkpoints, when [n] is positive. *)
Definition status_for (k n : nat) : string :=
  if (k <=? n)%nat then "completed" else "in_progress".

(** ** A concrete deployment

    A store reached from the empty one through the handlers themselves,
    with stand-ins for the credential primitives.  An admin and two
    officers register; the admin creates three points, a route over them
    (in an order that differs from creation order), an assignment of the
    route to the first officer and an assignment of a route id that
    resolves to nothing to the second. *)

Module Scenario.
Definition toy_hash (salt password : string) : string :=
  salt ++ "$" ++ password.

Definition toy_verify (password hash : string) : bool :=
  match index 0 "$" hash with
  | Some i => substring (i + 1) (String.length hash - (i + 1)) hash =? password
  | None => false
  end.

(** The stand-in for [pwd_context.verify]: it raises on a password that
    holds a NUL byte and answers by [toy_verify] on any other. *)
Fixpoint has_nul (s : string) : bool :=
  match s with
  | EmptyString => false
  | String c rest => Ascii.eqb c Ascii.zero || has_nul rest
  end.

Definition strict_verify (password hash : string) : verify_result :=
  if has_nul password then VerifyRaises
  else Verifies (toy_verify password hash).

(** A password with a NUL byte in front. *)
Definition nul_password : string := String Ascii.zero "guess".

Definition toy_token (sub now : string) : string :=
  "sub=" ++ sub ++ ";iat=" ++ now.

(** Reads back the subject of a [toy_token]; no expiry. *)
Definition toy_decode (token now : string) : jwt_result :=
  if prefix "sub=" token
  then match index 4 ";" token with
       | Some i => Payload (Some (substring 4 (i - 4) token))
       | None => InvalidTokenError
       end
  else InvalidTokenError.

Definition empty : Db.t := Db.mk [] [] [] [] [].

Definition t0 : string := "2024-05-01T08:00:00+00:00".
Definition today : string := "2024-05-01".

Definition chief : User.t :=
  User.mk "u-0" "chief" (toy_hash "s0" "hunter2") "The Chief" "admin"
          None t0.
Definition alice : User.t :=
  User.mk "u-1" "alice" (toy_hash "s1" "alicepw") "Alice A" "officer"
          (Some "B-1") t0.
Definition bob : User.t :=
  User.mk "u-2" "bob" (toy_hash "s2" "bobpw") "Bob B" "officer"
          (Some "B-2") t0.

Definition lobby : PatrolPoint.t :=
  PatrolPoint.mk "p-1" "Lobby" "Main lobby" "1 Main St" None None t0.
Definition depot : PatrolPoint.t :=
  PatrolPoint.mk "p-2" "Depot" "Fuel depot" "2 Side St" None None t0.
Definition tower : PatrolPoint.t :=
  PatrolPoint.mk "p-3" "Tower" "Watch tower" "3 Hill Rd" None None t0.

Definition round : Route.t :=
  Route.mk "r-1" "Round" "Perimeter round" ["p-2"; "p-1"; "p-3"] t0.

Definition alice_round : RouteAssignment.t :=
  RouteAssignment.mk "a-1" "u-1" "r-1" today "assigned" t0.
Definition bob_lost : RouteAssignment.t :=
  RouteAssignment.mk "a-2" "u-2" "r-gone" today "assigned" t0.

Definition registered : Db.t :=
  after (register toy_hash "u-2" t0 "s2"
           (UserCreate.mk "bob" "bobpw" "Bob B" "officer" (Some "B-2")))
    (after (register toy_hash "u-1" t0 "s1"
              (UserCreate.mk "alice" "alicepw" "Alice A" "officer"
                             (Some "B-1")))
       (after (register toy_hash "u-0" t0 "s0"
                 (UserCreate.mk "chief" "hunter2" "The Chief" "admin" None))
          empty)).

Definition catalogued : Db.t :=
  after (create_route "r-1" t0
           (RouteCreate.mk "Round" "Perimeter round" ["p-2"; "p-1"; "p-3"])
           chief)
    (after (create_patrol_point "p-3" t0
              (PatrolPointCreate.mk "Tower" "Watch tower" "3 Hill Rd"
                                    None None) chief)
       (after (create_patrol_point "p-2" t0
                 (PatrolPointCreate.mk "Depot" "Fuel depot" "2 Side St"
                                       None None) chief)
          (after (create_patrol_point "p-1" t0
                    (PatrolPointCreate.mk "Lobby" "Main lobby" "1 Main St"
                                          None None) chief)
             registered))).

Definition db0 : Db.t :=
  after (create_route_assignment "a-2" t0
           (RouteAssignmentCreate.mk "u-2" "r-gone" today) chief)
    (after (create_route_assignment "a-1" t0
              (RouteAssignmentCreate.mk "u-1" "r-1" today) chief)
       catalogued).

Definition lobby_checkin : AttendanceCreate.t :=
  AttendanceCreate.mk "a-1" "p-1" None.
Definition lobby_again : AttendanceCreate.t :=
  AttendanceCreate.mk "a-1" "p-1" (Some "second visit").

Definition att_id (i : nat) : string :=
  "att-" ++ NilZero.string_of_uint (Nat.to_uint i).

(** A thousand check-ins under [a-1] at ids that are not on the route
    (nothing validates the id), and then one at the lobby. *)
Definition elsewhere : list string :=
  map (fun i => "x-" ++ NilZero.string_of_uint (Nat.to_uint i)) (seq 0 1000).

Definition crowded : Db.t :=
  patrol att_id t0 alice "a-1" (elsewhere ++ ["p-1"])%list 0 db0.
End Scenario.

(** * Properties *)

(** ** The store operations *)

Module MongoFacts.
Section Collection.
Variable A : Type.
Implicit Types (q : A -> bool) (c : list A) (d : A).

Lemma find_one_insert_hit q c d x :
  Mongo.find_one q c = Some x ->
  Mongo.find_one q (Mongo.insert_one d c) = Some x.
Proof.
  unfold Mongo.find_one, Mongo.insert_one.
  induction c as [|y c IH]; simpl; [discriminate|].
  destruct (q y); auto.
Qed.

Lemma find_one_insert_miss q c d :
  Mongo.find_one q c = None ->
  Mongo.find_one q (Mongo.insert_one d c) = if q d then Some d else None.
Proof.
  unfold Mongo.find_one, Mongo.insert_one.
  induction c as [|y c IH]; simpl; [reflexivity|].
  destruct (q y); [discriminate|auto].
Qed.

Lemma find_one_none_count q c :
  Mongo.find_one q c = None <-> Mongo.count_documents q c = 0.
Proof.
  unfold Mongo.find_one, Mongo.count_documents.
  induction c as [|y c IH]; simpl; [tauto|].
  destruct (q y); simpl; [split; discriminate|exact IH].
Qed.

Lemma find_one_some_holds q c x :
  Mongo.find_one q c = Some x -> q x = true /\ In x c.
Proof.
  unfold Mongo.find_one. intros H.
  apply find_some in H. tauto.
Qed.

Lemma count_documents_insert q c d :
  Mongo.count_documents q (Mongo.insert_one d c)
  = Mongo.count_documents q c + (if q d then 1 else 0).
Proof.
  unfold Mongo.count_documents, Mongo.insert_one.
  rewrite filter_app, length_app. simpl.
  destruct (q d); reflexivity.
Qed.

(** An update that does not move a document in or out of the query
    shows through [find_one] as the update of what was found. *)
Lemma find_one_update_one q (upd : A -> A) c :
  (forall x, q (upd x) = q x) ->
  Mongo.find_one q (Mongo.update_one q upd c)
  = option_map upd (Mongo.find_one q c).
Proof.
  intros Hq. unfold Mongo.find_one.
  induction c as [|y c IH]; simpl; [reflexivity|].
  destruct (q y) eqn:E; simpl.
  - rewrite Hq, E. reflexivity.
  - rewrite E. exact IH.
Qed.

Lemma delete_one_length q c :
  length (fst (Mongo.delete_one q c)) + snd (Mongo.delete_one q c)
  = length c.
Proof.
  induction c as [|y c IH]; simpl; [reflexivity|].
  destruct (q y); simpl; [lia|].
  destruct (Mongo.delete_one q c) as [r n]. simpl in *. lia.
Qed.

Lemma delete_one_count q c :
  snd (Mongo.delete_one q c) = 0 <-> Mongo.find_one q c = None.
Proof.
  unfold Mongo.find_one.
  induction c as [|y c IH]; simpl; [tauto|].
  destruct (q y); simpl; [split; discriminate|].
  destruct (Mongo.delete_one q c) as [r n]. exact IH.
Qed.

Lemma find_to_list_all q n c :
  length (filter q c) <= n -> Mongo.find_to_list q n c = filter q c.
Proof. intros H. unfold Mongo.find_to_list. now apply firstn_all2. Qed.

Lemma find_to_list_sound q n c x :
  In x (Mongo.find_to_list q n c) -> q x = true /\ In x c.
Proof.
  unfold Mongo.find_to_list. intros H.
  generalize (firstn_skipn n (filter q c)); intros E.
  assert (Hin : In x (filter q c)).
  { rewrite <- E. apply in_or_app. now left. }
  apply filter_In in Hin. tauto.
Qed.
End Collection.
End MongoFacts.

(** Unfolding of the handler combinators, for symbolic runs. *)
Ltac run := unfold bind, query, write, raise, ret, final_db, result; simpl.

Lemma set_status_id s a :
  RouteAssignment.id (RouteAssignment.set_status s a) = RouteAssignment.id a.
Proof. reflexivity. Qed.

(** ** Identity store *)

Section Identity.
Variable get_password_hash : string -> string -> string.
Variable verify_password : string -> string -> verify_result.
Variable create_access_token : string -> string -> string.

(** A registration returns exactly when the username is free, and then
    the store gains the one new document at its end. *)
Lemma register_returns fresh_id now salt user_data db resp :
  result (register get_password_hash fresh_id now salt user_data db)
    = Returns resp ->
  Mongo.find_one (user_with_username (UserCreate.username user_data))
                 (Db.users db)
    = None
  /\ final_db (register get_password_hash fresh_id now salt user_data db)
     = Db.set_users
         (Mongo.insert_one
            (User.mk fresh_id (UserCreate.username user_data)
               (get_password_hash salt (UserCreate.password user_data))
               (UserCreate.full_name user_data)
               (UserCreate.role user_data)
               (UserCreate.badge_number user_data) now))
         db.
Proof.
  unfold register, user_with_username. run.
  destruct (Mongo.find_one _ (Db.users db)); simpl; [discriminate|].
  intros _. split; reflexivity.
Qed.

(** C7. After a registration has succeeded, any further registration
    under the same username raises 400 "Username already exists" and
    leaves the whole store as it was: no second document with that
    username is inserted (exactly one is stored) and the first user's
    document is still the one found under the username. *)
Theorem register_duplicate_username
    id1 now1 salt1 id2 now2 salt2 first second db resp :
  result (register get_password_hash id1 now1 salt1 first db)
    = Returns resp ->
  UserCreate.username second = UserCreate.username first ->
  let db1 :=
    final_db (register get_password_hash id1 now1 salt1 first db) in
  register get_password_hash id2 now2 salt2 second db1
    = (db1, Raises (mkHTTPException 400 "Username already exists"))
  /\ Mongo.count_documents (user_with_username (UserCreate.username first))
                           (Db.users db1) = 1
  /\ option_map User.id
       (Mongo.find_one (user_with_username (UserCreate.username first))
                       (Db.users db1)) = Some (UserResponse.id resp).
Proof.
  intros Hret Hname db1.
  destruct (register_returns _ _ _ _ _ Hret) as [Hfree Hdb].
  assert (Hresp : UserResponse.id resp = id1).
  { revert Hret. unfold register. run.
    fold (user_with_username (UserCreate.username first)). rewrite Hfree. simpl.
    intros [= <-]. reflexivity. }
  subst db1. rewrite Hdb. clear Hdb Hret.
  assert (Hfound :
    Mongo.find_one (user_with_username (UserCreate.username first))
      (Mongo.insert_one
         (User.mk id1 (UserCreate.username first)
            (get_password_hash salt1 (UserCreate.password first))
            (UserCreate.full_name first) (UserCreate.role first)
            (UserCreate.badge_number first) now1)
         (Db.users db))
    = Some (User.mk id1 (UserCreate.username first)
            (get_password_hash salt1 (UserCreate.password first))
            (UserCreate.full_name first) (UserCreate.role first)
            (UserCreate.badge_number first) now1)).
  { rewrite MongoFacts.find_one_insert_miss by exact Hfree.
    unfold user_with_username. simpl. now rewrite String.eqb_refl. }
  split; [|split].
  - unfold register. run. rewrite Hname.
    fold (user_with_username (UserCreate.username first)).
    rewrite Hfound. reflexivity.
  - simpl. rewrite MongoFacts.count_documents_insert.
    apply MongoFacts.find_one_none_count in Hfree. rewrite Hfree.
    unfold user_with_username. simpl. now rewrite String.eqb_refl.
  - simpl. rewrite Hfound, Hresp. reflexivity.
Qed.

(** When the verification answers, and answers no, a login under a
    stored username ends as a login under a username that is not stored
    does: both raise 401 "Invalid username or password" and both leave
    the store untouched. *)
Lemma login_failures_identical now1 now2 unknown wrong db user :
  Mongo.find_one (user_with_username (UserLogin.username unknown)) (Db.users db)
    = None ->
  Mongo.find_one (user_with_username (UserLogin.username wrong)) (Db.users db)
    = Some user ->
  verify_password (UserLogin.password wrong) (User.password_hash user)
    = Verifies false ->
  login verify_password create_access_token now1 unknown db
    = login verify_password create_access_token now2 wrong db
  /\ login verify_password create_access_token now1 unknown db
     = (db, Raises (mkHTTPException 401 "Invalid username or password")).
Proof.
  intros Hnone Hsome Hbad. unfold login. run.
  fold (user_with_username (UserLogin.username unknown)).
  fold (user_with_username (UserLogin.username wrong)).
  rewrite Hnone, Hsome. simpl. rewrite Hbad. simpl. split; reflexivity.
Qed.

(** C8 at its failing inputs.  The two failures are not always the same.
    For a password on which the verification raises, a login under a
    stored username ends in 500 "Internal Server Error", and a login
    under a username that is not stored ends in 401 "Invalid username or
    password" whatever its password, the same one included: the answers
    differ, and the difference tells that the first username is stored. *)
Theorem login_failure_tells_stored_username
    now1 now2 unknown stored db user :
  Mongo.find_one (user_with_username (UserLogin.username unknown)) (Db.users db)
    = None ->
  Mongo.find_one (user_with_username (UserLogin.username stored)) (Db.users db)
    = Some user ->
  verify_password (UserLogin.password stored) (User.password_hash user)
    = VerifyRaises ->
  login verify_password create_access_token now1 unknown db
    = (db, Raises (mkHTTPException 401 "Invalid username or password"))
  /\ login verify_password create_access_token now2 stored db
     = (db, Raises (mkHTTPException 500 "Internal Server Error"))
  /\ result (login verify_password create_access_token now1 unknown db)
     <> result (login verify_password create_access_token now2 stored db).
Proof.
  intros Hnone Hsome Hraises.
  assert (Hunknown :
    login verify_password create_access_token now1 unknown db
    = (db, Raises (mkHTTPException 401 "Invalid username or password"))).
  { unfold login. run.
    fold (user_with_username (UserLogin.username unknown)).
    now rewrite Hnone. }
  assert (Hstored :
    login verify_password create_access_token now2 stored db
    = (db, Raises (mkHTTPException 500 "Internal Server Error"))).
  { unfold login. run.
    fold (user_with_username (UserLogin.username stored)).
    rewrite Hsome. simpl. now rewrite Hraises. }
  split; [exact Hunknown|]. split; [exact Hstored|].
  rewrite Hunknown, Hstored. unfold result. simpl. discriminate.
Qed.

(** A registration under a free username stores the role of the
    request as it came. *)
Lemma register_stores_request_role fresh_id now salt user_data db :
  Mongo.find_one (user_with_username (UserCreate.username user_data))
                 (Db.users db)
    = None ->
  exists u,
    Db.users
      (final_db (register get_password_hash fresh_id now salt user_data db))
    = (Db.users db ++ [u])%list
    /\ User.role u = UserCreate.role user_data.
Proof.
  intros Hfree. unfold register. run.
  fold (user_with_username (UserCreate.username user_data)).
  rewrite Hfree. simpl.
  eexists. split; reflexivity.
Qed.
End Identity.

(** ** Attendance recorder *)

Section Attendance.
Variables (fresh_id now : string).
Variable attendance_data : AttendanceCreate.t.
Variable current_user : User.t.
Variable db : Db.t.

Let assignment_id := AttendanceCreate.route_assignment_id attendance_data.
Let point_id := AttendanceCreate.patrol_point_id attendance_data.
Let doc := attendance_doc fresh_id now attendance_data current_user.
Let inserted := Db.set_attendance (Mongo.insert_one doc) db.
Let run_mark := mark_attendance fresh_id now attendance_data current_user db.

(** The three ways the call raises, each before any write. *)
Lemma mark_attendance_forbidden :
  User.role current_user <> "officer" ->
  run_mark
  = (db, Raises (mkHTTPException 403 "Only officers can mark attendance")).
Proof.
  intros H. apply String.eqb_neq in H.
  unfold run_mark, mark_attendance. rewrite H. reflexivity.
Qed.

Lemma mark_attendance_not_found :
  User.role current_user = "officer" ->
  Mongo.find_one (assignment_with_id assignment_id) (Db.route_assignments db)
    = None ->
  run_mark
  = (db, Raises (mkHTTPException 404 "Route assignment not found")).
Proof.
  intros Hrole Hnone. unfold assignment_with_id, assignment_id in Hnone.
  unfold run_mark, mark_attendance. rewrite Hrole. run.
  rewrite Hnone. reflexivity.
Qed.

Lemma mark_attendance_conflict a existing :
  User.role current_user = "officer" ->
  Mongo.find_one (assignment_with_id assignment_id) (Db.route_assignments db)
    = Some a ->
  Mongo.find_one (attendance_at assignment_id point_id) (Db.attendance db)
    = Some existing ->
  run_mark
  = (db, Raises (mkHTTPException 400
                   "Attendance already marked for this point")).
Proof.
  intros Hrole Ha Hex.
  unfold assignment_with_id, assignment_id in Ha.
  unfold attendance_at, assignment_id, point_id in Hex.
  unfold run_mark, mark_attendance. rewrite Hrole. run.
  rewrite Ha. simpl. rewrite Hex. reflexivity.
Qed.

(** The run that returns: the document is appended, then the status is
    recomputed when the assignment's route resolves. *)
Lemma mark_attendance_success a :
  User.role current_user = "officer" ->
  Mongo.find_one (assignment_with_id assignment_id) (Db.route_assignments db)
    = Some a ->
  Mongo.find_one (attendance_at assignment_id point_id) (Db.attendance db)
    = None ->
  run_mark
  = (match Mongo.find_one (route_with_id (RouteAssignment.route_id a))
                          (Db.routes db) with
     | Some route =>
         let n := Mongo.count_documents (attendance_of assignment_id)
                                        (Db.attendance inserted) in
         if (length (Route.patrol_point_ids route) <=? n)%nat
         then Db.set_route_assignments
                (Mongo.update_one (assignment_with_id assignment_id)
                   (RouteAssignment.set_status "completed")) inserted
         else if (0 <? n)%nat
         then Db.set_route_assignments
                (Mongo.update_one (assignment_with_id assignment_id)
                   (RouteAssignment.set_status "in_progress")) inserted
         else inserted
     | None => inserted
     end, Returns doc).
Proof.
  intros Hrole Ha Hex.
  unfold assignment_with_id, assignment_id in Ha.
  unfold attendance_at, assignment_id, point_id in Hex.
  unfold run_mark, mark_attendance. rewrite Hrole. run.
  rewrite Ha. simpl. rewrite Hex. simpl.
  unfold route_with_id.
  destruct (Mongo.find_one _ (Db.routes db)) as [route|]; simpl;
    [|reflexivity].
  unfold attendance_of, assignment_id, inserted, doc, attendance_doc. simpl.
  destruct (_ <=? _)%nat; simpl; [reflexivity|].
  destruct (0 <? _)%nat; reflexivity.
Qed.

(** A call that returns went through all three checks. *)
Lemma mark_attendance_returns att :
  result run_mark = Returns att ->
  User.role current_user = "officer"
  /\ (exists a,
        Mongo.find_one (assignment_with_id assignment_id)
                       (Db.route_assignments db) = Some a)
  /\ Mongo.find_one (attendance_at assignment_id point_id) (Db.attendance db)
     = None.
Proof.
  intros Hret.
  destruct (String.eqb_spec (User.role current_user) "officer")
    as [Hrole|Hrole].
  2:{ rewrite (mark_attendance_forbidden Hrole) in Hret. discriminate. }
  destruct (Mongo.find_one (assignment_with_id assignment_id)
              (Db.route_assignments db)) as [a|] eqn:Ha.
  2:{ rewrite (mark_attendance_not_found Hrole Ha) in Hret. discriminate. }
  destruct (Mongo.find_one (attendance_at assignment_id point_id)
              (Db.attendance db)) as [existing|] eqn:Hex.
  1:{ rewrite (mark_attendance_conflict Hrole Ha Hex) in Hret.
      discriminate. }
  split; [assumption|]. split; [now exists a|reflexivity].
Qed.
End Attendance.

Lemma assignment_with_id_set_status assignment_id s a :
  assignment_with_id assignment_id (RouteAssignment.set_status s a)
  = assignment_with_id assignment_id a.
Proof. reflexivity. Qed.

Lemma attendance_at_doc fresh_id now attendance_data current_user :
  attendance_at (AttendanceCreate.route_assignment_id attendance_data)
                (AttendanceCreate.patrol_point_id attendance_data)
                (attendance_doc fresh_id now attendance_data current_user)
  = true.
Proof.
  unfold attendance_at, attendance_doc. simpl.
  now rewrite !String.eqb_refl.
Qed.

Lemma attendance_of_doc fresh_id now attendance_data current_user :
  attendance_of (AttendanceCreate.route_assignment_id attendance_data)
                (attendance_doc fresh_id now attendance_data current_user)
  = true.
Proof. unfold attendance_of, attendance_doc. simpl. apply String.eqb_refl. Qed.

(** What a returning call leaves in the store: the attendance collection
    with the new document at its end, the assignment still resolving, and
    the three other collections as they were. *)
Lemma mark_attendance_final fresh_id now attendance_data current_user db att :
  result (mark_attendance fresh_id now attendance_data current_user db)
    = Returns att ->
  let db' :=
    final_db (mark_attendance fresh_id now attendance_data current_user db) in
  att = attendance_doc fresh_id now attendance_data current_user
  /\ Db.attendance db' = Mongo.insert_one att (Db.attendance db)
  /\ (exists a',
        Mongo.find_one
          (assignment_with_id
             (AttendanceCreate.route_assignment_id attendance_data))
          (Db.route_assignments db') = Some a')
  /\ Db.users db' = Db.users db
  /\ Db.patrol_points db' = Db.patrol_points db
  /\ Db.routes db' = Db.routes db.
Proof.
  intros Hret db'.
  destruct (mark_attendance_returns _ _ _ _ _ Hret)
    as (Hrole & [a Ha] & Hex).
  subst db'. revert Hret.
  rewrite (mark_attendance_success fresh_id now _ _ _ Hrole Ha Hex).
  unfold result, final_db. simpl. intros [= <-].
  assert (Hupd : forall s,
    exists a',
      Mongo.find_one
        (assignment_with_id
           (AttendanceCreate.route_assignment_id attendance_data))
        (Mongo.update_one
           (assignment_with_id
              (AttendanceCreate.route_assignment_id attendance_data))
           (RouteAssignment.set_status s) (Db.route_assignments db))
      = Some a').
  { intros s. rewrite MongoFacts.find_one_update_one
      by apply assignment_with_id_set_status.
    rewrite Ha. simpl. eauto. }
  destruct (Mongo.find_one (route_with_id _) (Db.routes db)) as [route|];
    simpl.
  - destruct (_ <=? _)%nat; simpl; [|destruct (0 <? _)%nat; simpl];
      repeat split; eauto.
  - repeat split; eauto.
Qed.

(** C1. When a mark-attendance call returns and the assignment's route
    resolves to a stored route with k checkpoints, then with n the number
    of attendance documents of the assignment after the call: n is
    positive; the assignment's status is "completed" if n >= k and
    "in_progress" if n < k.  Nothing is assumed about which checkpoints
    the documents name or in which order they were marked. *)
Theorem mark_attendance_status
    fresh_id now attendance_data current_user db att a route :
  result (mark_attendance fresh_id now attendance_data current_user db)
    = Returns att ->
  Mongo.find_one
    (assignment_with_id (AttendanceCreate.route_assignment_id attendance_data))
    (Db.route_assignments db) = Some a ->
  Mongo.find_one (route_with_id (RouteAssignment.route_id a)) (Db.routes db)
    = Some route ->
  let db' :=
    final_db (mark_attendance fresh_id now attendance_data current_user db) in
  let n :=
    Mongo.count_documents
      (attendance_of (AttendanceCreate.route_assignment_id attendance_data))
      (Db.attendance db') in
  let k := length (Route.patrol_point_ids route) in
  0 < n
  /\ (n >= k ->
      status_of (AttendanceCreate.route_assignment_id attendance_data) db'
      = Some "completed")
  /\ (n < k ->
      status_of (AttendanceCreate.route_assignment_id attendance_data) db'
      = Some "in_progress").
Proof.
  intros Hret Ha Hroute db' n k.
  destruct (mark_attendance_final _ _ _ _ _ Hret) as (Hatt & Hins & _).
  fold db' in Hins.
  assert (Hn : n = Mongo.count_documents
                     (attendance_of
                        (AttendanceCreate.route_assignment_id attendance_data))
                     (Db.attendance db) + 1).
  { unfold n. rewrite Hins, MongoFacts.count_documents_insert, Hatt.
    now rewrite attendance_of_doc. }
  destruct (mark_attendance_returns _ _ _ _ _ Hret) as (Hrole & _ & Hex).
  assert (Hrun := mark_attendance_success fresh_id now _ _ _ Hrole Ha Hex).
  rewrite Hroute in Hrun. cbv zeta in Hrun.
  assert (Hn' :
    Mongo.count_documents
      (attendance_of (AttendanceCreate.route_assignment_id attendance_data))
      (Db.attendance
         (Db.set_attendance
            (Mongo.insert_one
               (attendance_doc fresh_id now attendance_data current_user))
            db)) = n).
  { rewrite Hn. simpl. rewrite MongoFacts.count_documents_insert.
    now rewrite attendance_of_doc. }
  rewrite Hn' in Hrun. fold k in Hrun.
  split; [lia|].
  unfold status_of, db'. rewrite Hrun. unfold final_db. simpl.
  destruct (Nat.leb_spec k n) as [Hle|Hlt].
  - split; [intros _|lia]. simpl.
    rewrite MongoFacts.find_one_update_one
      by apply assignment_with_id_set_status.
    rewrite Ha. reflexivity.
  - split; [lia|intros _].
    destruct (Nat.ltb_spec 0 n) as [_|Hz]; [|lia]. simpl.
    rewrite MongoFacts.find_one_update_one
      by apply assignment_with_id_set_status.
    rewrite Ha. reflexivity.
Qed.

(** C2. After a mark-attendance call has returned, a second call by an
    officer for the same (assignment, checkpoint) pair raises 400
    "Attendance already marked for this point" and leaves the store
    exactly as the first call left it (no document inserted, no status
    rewritten); that store holds exactly one attendance document for the
    pair. *)
Theorem mark_attendance_twice
    id1 now1 first caller1 id2 now2 second caller2 db att :
  result (mark_attendance id1 now1 first caller1 db) = Returns att ->
  AttendanceCreate.route_assignment_id second
    = AttendanceCreate.route_assignment_id first ->
  AttendanceCreate.patrol_point_id second
    = AttendanceCreate.patrol_point_id first ->
  User.role caller2 = "officer" ->
  let db1 := final_db (mark_attendance id1 now1 first caller1 db) in
  mark_attendance id2 now2 second caller2 db1
    = (db1, Raises (mkHTTPException 400
                      "Attendance already marked for this point"))
  /\ Mongo.count_documents
       (attendance_at (AttendanceCreate.route_assignment_id first)
                      (AttendanceCreate.patrol_point_id first))
       (Db.attendance db1) = 1.
Proof.
  intros Hret Hsame_a Hsame_p Hrole db1.
  destruct (mark_attendance_final _ _ _ _ _ Hret)
    as (Hatt & Hins & [a' Ha'] & _).
  destruct (mark_attendance_returns _ _ _ _ _ Hret) as (_ & _ & Hex).
  fold db1 in Hins, Ha'.
  assert (Hfound :
    Mongo.find_one
      (attendance_at (AttendanceCreate.route_assignment_id first)
                     (AttendanceCreate.patrol_point_id first))
      (Db.attendance db1) = Some att).
  { rewrite Hins, MongoFacts.find_one_insert_miss by exact Hex.
    now rewrite Hatt, attendance_at_doc. }
  split.
  - apply mark_attendance_conflict with (a := a') (existing := att).
    + exact Hrole.
    + now rewrite Hsame_a.
    + now rewrite Hsame_a, Hsame_p.
  - rewrite Hins, MongoFacts.count_documents_insert.
    apply MongoFacts.find_one_none_count in Hex. rewrite Hex.
    now rewrite Hatt, attendance_at_doc.
Qed.

(** C5. For an officer caller the call never looks at the assignment's
    [officer_id]: it raises with status 404 exactly when the assignment
    id resolves to nothing, and whenever the id resolves (to an
    assignment of any officer) and no attendance exists yet for the pair,
    it returns the created document, which is stored and carries the
    caller's id as [officer_id]. *)
Theorem mark_attendance_no_ownership_check
    fresh_id now attendance_data current_user db :
  User.role current_user = "officer" ->
  let run_mark :=
    mark_attendance fresh_id now attendance_data current_user db in
  let stored_assignment :=
    Mongo.find_one
      (assignment_with_id
         (AttendanceCreate.route_assignment_id attendance_data))
      (Db.route_assignments db) in
  ((exists e, result run_mark = Raises e /\ status_code e = 404)
   <-> stored_assignment = None)
  /\ (forall a,
        stored_assignment = Some a ->
        Mongo.find_one
          (attendance_at (AttendanceCreate.route_assignment_id attendance_data)
                         (AttendanceCreate.patrol_point_id attendance_data))
          (Db.attendance db) = None ->
        exists att,
          result run_mark = Returns att
          /\ Attendance.officer_id att = User.id current_user
          /\ Attendance.route_assignment_id att = RouteAssignment.id a
          /\ In att (Db.attendance (final_db run_mark))).
Proof.
  intros Hrole run_mark stored_assignment. split.
  - split.
    + intros (e & He & Hcode).
      destruct stored_assignment as [a|] eqn:Ha; [exfalso|reflexivity].
      destruct (Mongo.find_one
        (attendance_at (AttendanceCreate.route_assignment_id attendance_data)
                       (AttendanceCreate.patrol_point_id attendance_data))
        (Db.attendance db)) as [existing|] eqn:Hex.
      * unfold run_mark in He.
        rewrite (mark_attendance_conflict fresh_id now _ _ _ Hrole Ha Hex)
          in He.
        unfold result in He. simpl in He. injection He as <-.
        discriminate Hcode.
      * unfold run_mark in He.
        rewrite (mark_attendance_success fresh_id now _ _ _ Hrole Ha Hex)
          in He.
        discriminate He.
    + intros Hnone. unfold run_mark.
      rewrite (mark_attendance_not_found fresh_id now _ _ _ Hrole Hnone).
      eexists. split; reflexivity.
  - intros a Ha Hex.
    exists (attendance_doc fresh_id now attendance_data current_user).
    assert (Hret : result run_mark
      = Returns (attendance_doc fresh_id now attendance_data current_user)).
    { unfold run_mark.
      now rewrite (mark_attendance_success fresh_id now _ _ _ Hrole Ha Hex). }
    split; [exact Hret|]. split; [reflexivity|]. split.
    + simpl. apply MongoFacts.find_one_some_holds in Ha.
      destruct Ha as [Hid _]. unfold assignment_with_id in Hid.
      apply String.eqb_eq in Hid. now rewrite Hid.
    + destruct (mark_attendance_final _ _ _ _ _ Hret) as (_ & Hins & _).
      fold run_mark in Hins. rewrite Hins.
      unfold Mongo.insert_one. apply in_or_app. right. now left.
Qed.

(** C10. When the assignment resolves but its [route_id] does not, an
    officer's call for a pair without attendance returns the created
    document and appends it to the attendance collection; no exception is
    raised and every other collection, the route assignments with their
    status fields included, is left as it was. *)
Theorem mark_attendance_dangling_route
    fresh_id now attendance_data current_user db a :
  User.role current_user = "officer" ->
  Mongo.find_one
    (assignment_with_id (AttendanceCreate.route_assignment_id attendance_data))
    (Db.route_assignments db) = Some a ->
  Mongo.find_one
    (attendance_at (AttendanceCreate.route_assignment_id attendance_data)
                   (AttendanceCreate.patrol_point_id attendance_data))
    (Db.attendance db) = None ->
  Mongo.find_one (route_with_id (RouteAssignment.route_id a)) (Db.routes db)
    = None ->
  let att := attendance_doc fresh_id now attendance_data current_user in
  let run_mark :=
    mark_attendance fresh_id now attendance_data current_user db in
  result run_mark = Returns att
  /\ Db.attendance (final_db run_mark) = (Db.attendance db ++ [att])%list
  /\ Db.route_assignments (final_db run_mark) = Db.route_assignments db
  /\ status_of (AttendanceCreate.route_assignment_id attendance_data)
               (final_db run_mark)
     = Some (RouteAssignment.status a).
Proof.
  intros Hrole Ha Hex Hroute att run_mark. unfold run_mark.
  rewrite (mark_attendance_success fresh_id now _ _ _ Hrole Ha Hex), Hroute.
  unfold result, final_db, status_of. simpl. rewrite Ha.
  repeat split; reflexivity.
Qed.

(** *** Order of the check-ins *)

(** With the route resolving, the recomputation always writes: the count
    it reads includes the document just inserted, so the branch that
    leaves the status alone is never taken. *)
Lemma mark_attendance_resolved
    fresh_id now attendance_data current_user db a route :
  User.role current_user = "officer" ->
  Mongo.find_one
    (assignment_with_id (AttendanceCreate.route_assignment_id attendance_data))
    (Db.route_assignments db) = Some a ->
  Mongo.find_one
    (attendance_at (AttendanceCreate.route_assignment_id attendance_data)
                   (AttendanceCreate.patrol_point_id attendance_data))
    (Db.attendance db) = None ->
  Mongo.find_one (route_with_id (RouteAssignment.route_id a)) (Db.routes db)
    = Some route ->
  after (mark_attendance fresh_id now attendance_data current_user) db
  = Db.set_route_assignments
      (Mongo.update_one
         (assignment_with_id
            (AttendanceCreate.route_assignment_id attendance_data))
         (RouteAssignment.set_status
            (status_for
               (length (Route.patrol_point_ids route))
               (S (Mongo.count_documents
                     (attendance_of
                        (AttendanceCreate.route_assignment_id attendance_data))
                     (Db.attendance db))))))
      (Db.set_attendance
         (Mongo.insert_one
            (attendance_doc fresh_id now attendance_data current_user))
         db).
Proof.
  intros Hrole Ha Hex Hroute. unfold after.
  rewrite (mark_attendance_success fresh_id now _ _ _ Hrole Ha Hex), Hroute.
  unfold final_db. simpl.
  rewrite MongoFacts.count_documents_insert, attendance_of_doc, Nat.add_1_r.
  unfold status_for.
  destruct (_ <=? _)%nat; reflexivity.
Qed.

Lemma attended_find_one assignment_id point_id db :
  attended assignment_id point_id db = false ->
  Mongo.find_one (attendance_at assignment_id point_id) (Db.attendance db)
  = None.
Proof.
  unfold attended, Mongo.find_one. intros H.
  induction (Db.attendance db) as [|att c IH]; simpl in *; [reflexivity|].
  destruct (attendance_at assignment_id point_id att); simpl in H;
    [discriminate|auto].
Qed.

Section Patrol.
Variable fresh : nat -> string.
Variable now : string.
Variable caller : User.t.
Variable assignment_id : string.
Variable route : Route.t.
Hypothesis caller_is_officer : User.role caller = "officer".

Local Abbreviation on_patrol := (on_patrol assignment_id route).
Local Abbreviation count := (attendance_count assignment_id).
Local Abbreviation k := (length (Route.patrol_point_ids route)).

(** One check-in at a checkpoint not yet attended. *)
Lemma patrol_step i point_id db :
  on_patrol db ->
  attended assignment_id point_id db = false ->
  let db1 :=
    after (mark_attendance (fresh i) now
             (AttendanceCreate.mk assignment_id point_id None) caller) db in
  on_patrol db1
  /\ count db1 = S (count db)
  /\ status_of assignment_id db1 = Some (status_for k (S (count db)))
  /\ (forall other, other <> point_id ->
        attended assignment_id other db1 = attended assignment_id other db).
Proof.
  intros (a & Ha & Hroute) Hfree db1.
  apply attended_find_one in Hfree.
  assert (Hdb1 := @mark_attendance_resolved (fresh i) now
            (AttendanceCreate.mk assignment_id point_id None) caller db a
            route caller_is_officer Ha Hfree Hroute).
  fold db1 in Hdb1. simpl in Hdb1.
  assert (Hfound :
    Mongo.find_one (assignment_with_id assignment_id)
                   (Db.route_assignments db1)
    = Some (RouteAssignment.set_status (status_for k (S (count db))) a)).
  { rewrite Hdb1. simpl.
    rewrite MongoFacts.find_one_update_one
      by apply assignment_with_id_set_status.
    now rewrite Ha. }
  split; [|split; [|split]].
  - eexists. split; [exact Hfound|].
    rewrite Hdb1. simpl. exact Hroute.
  - unfold attendance_count. rewrite Hdb1. simpl.
    rewrite MongoFacts.count_documents_insert.
    unfold attendance_of at 2. simpl. rewrite String.eqb_refl. lia.
  - unfold status_of. now rewrite Hfound.
  - intros other Hother. unfold attended. rewrite Hdb1. simpl.
    unfold Mongo.insert_one. rewrite existsb_app. simpl.
    unfold attendance_at at 2. simpl.
    apply String.eqb_neq in Hother. rewrite (String.eqb_sym point_id).
    rewrite Hother, andb_false_r. now rewrite !orb_false_r.
Qed.

(** A patrol over distinct checkpoints, none attended before, adds one
    attendance document per checkpoint and leaves the status that the
    final count calls for. *)
Lemma patrol_status point_ids : forall i db,
  on_patrol db ->
  NoDup point_ids ->
  (forall point_id, In point_id point_ids ->
     attended assignment_id point_id db = false) ->
  let db' := patrol fresh now caller assignment_id point_ids i db in
  on_patrol db'
  /\ count db' = count db + length point_ids
  /\ (point_ids <> [] ->
      status_of assignment_id db'
      = Some (status_for k (count db + length point_ids))).
Proof.
  induction point_ids as [|point_id rest IH]; intros i db Hon Hnodup Hfree.
  - simpl. split; [exact Hon|]. split; [lia|congruence].
  - inversion Hnodup as [|? ? Hnotin Hrest]; subst.
    destruct (@patrol_step i point_id db Hon
                (Hfree point_id (or_introl eq_refl)))
      as (Hon1 & Hcount1 & Hstatus1 & Hothers).
    assert (Hfree1 : forall p, In p rest ->
      attended assignment_id p
        (after (mark_attendance (fresh i) now
                  (AttendanceCreate.mk assignment_id point_id None) caller)
           db) = false).
    { intros p Hin. rewrite Hothers.
      - apply Hfree. now right.
      - intros ->. contradiction. }
    destruct (IH (S i) _ Hon1 Hrest Hfree1) as (Hon' & Hcount' & Hstatus').
    simpl. split; [exact Hon'|]. split.
    + rewrite Hcount', Hcount1. simpl. lia.
    + intros _. destruct rest as [|next rest'].
      * simpl. rewrite Hstatus1. f_equal. f_equal. simpl. lia.
      * rewrite Hstatus' by discriminate. rewrite Hcount1.
        f_equal. f_equal. simpl. lia.
Qed.

(** Two patrols over the same distinct checkpoints in different orders,
    from the same store, end in the same status; from a store with no
    attendance for the assignment, visiting every checkpoint of a route
    without repeated ids ends in "completed", and visiting some but not
    all in "in_progress". *)
Lemma patrol_any_order visits visits' i i' db :
  on_patrol db ->
  NoDup visits ->
  Permutation visits visits' ->
  (forall point_id, In point_id visits ->
     attended assignment_id point_id db = false) ->
  status_of assignment_id (patrol fresh now caller assignment_id visits i db)
  = status_of assignment_id
      (patrol fresh now caller assignment_id visits' i' db)
  /\ (count db = 0 -> visits <> [] ->
      status_of assignment_id
        (patrol fresh now caller assignment_id visits i db)
      = Some (if (k <=? length visits)%nat
              then "completed" else "in_progress")).
Proof.
  intros Hon Hnodup Hperm Hfree.
  assert (Hnodup' : NoDup visits')
    by (eapply Permutation_NoDup; eassumption).
  assert (Hfree' : forall p, In p visits' ->
            attended assignment_id p db = false).
  { intros p Hin. apply Hfree.
    eapply Permutation_in; [apply Permutation_sym; eassumption|exact Hin]. }
  destruct (@patrol_status visits i db Hon Hnodup Hfree) as (_ & _ & Hs).
  destruct (@patrol_status visits' i' db Hon Hnodup' Hfree') as (_ & _ & Hs').
  split.
  - destruct visits as [|p rest].
    + apply Permutation_nil in Hperm. subst. reflexivity.
    + rewrite Hs by discriminate.
      rewrite Hs'.
      * now rewrite (Permutation_length Hperm).
      * intros ->. apply Permutation_sym, Permutation_nil in Hperm.
        discriminate.
  - intros Hzero Hne. rewrite (Hs Hne), Hzero. reflexivity.
Qed.
End Patrol.

(** ** Catalog store *)

Lemma delete_one_others (A : Type) (q : A -> bool) (c : list A) :
  filter (fun x => negb (q x)) (fst (Mongo.delete_one q c))
  = filter (fun x => negb (q x)) c.
Proof.
  induction c as [|y c IH]; simpl; [reflexivity|].
  destruct (q y) eqn:E; simpl.
  - reflexivity.
  - destruct (Mongo.delete_one q c) as [r n]. simpl in *.
    rewrite E. simpl. now rewrite IH.
Qed.

Lemma delete_one_matching (A : Type) (q : A -> bool) (c : list A) :
  Mongo.count_documents q (fst (Mongo.delete_one q c))
  + snd (Mongo.delete_one q c)
  = Mongo.count_documents q c.
Proof.
  unfold Mongo.count_documents.
  induction c as [|y c IH]; simpl; [reflexivity|].
  destruct (q y) eqn:E; simpl.
  - lia.
  - destruct (Mongo.delete_one q c) as [r n]. simpl in *.
    rewrite E. exact IH.
Qed.

(** Whatever its outcome, [delete_patrol_point] writes to no collection
    but the patrol points. *)
Lemma delete_patrol_point_frame point_id current_user db :
  let db' := final_db (delete_patrol_point point_id current_user db) in
  Db.users db' = Db.users db
  /\ Db.routes db' = Db.routes db
  /\ Db.route_assignments db' = Db.route_assignments db
  /\ Db.attendance db' = Db.attendance db.
Proof.
  unfold delete_patrol_point.
  destruct (negb _); run; [repeat split|].
  destruct (Mongo.delete_one _ (Db.patrol_points db)) as [c n]. simpl.
  destruct (n =? 0)%nat; simpl; repeat split.
Qed.

Lemma delete_patrol_point_returns point_id current_user db msg :
  result (delete_patrol_point point_id current_user db) = Returns msg ->
  Db.patrol_points (final_db (delete_patrol_point point_id current_user db))
  = fst (Mongo.delete_one (point_with_id point_id) (Db.patrol_points db))
  /\ snd (Mongo.delete_one (point_with_id point_id) (Db.patrol_points db))
     = 1.
Proof.
  unfold delete_patrol_point, point_with_id.
  destruct (negb _); run; [discriminate|].
  assert (Hn : forall c : list PatrolPoint.t,
    snd (Mongo.delete_one (fun p => PatrolPoint.id p =? point_id) c) <= 1).
  { induction c as [|y c IH]; simpl; [lia|].
    destruct (PatrolPoint.id y =? point_id); simpl; [lia|].
    destruct (Mongo.delete_one _ c). exact IH. }
  specialize (Hn (Db.patrol_points db)).
  destruct (Mongo.delete_one _ (Db.patrol_points db)) as [c n]. simpl in *.
  destruct (Nat.eqb_spec n 0); simpl; [discriminate|].
  intros _. split; [reflexivity|lia].
Qed.

(** C9. When deleting a patrol point succeeds and a stored route lists
    the point's id, the deletion removes one patrol point document with
    that id and nothing else: every other patrol point stays, the routes
    collection is unchanged (so the route is still stored, still listing
    the id), reading the routes afterwards gives what it gave before, and
    the users, assignments and attendance are untouched. *)
Theorem delete_patrol_point_not_cascaded
    point_id current_user reader db msg route :
  result (delete_patrol_point point_id current_user db) = Returns msg ->
  In route (Db.routes db) ->
  In point_id (Route.patrol_point_ids route) ->
  let db' := final_db (delete_patrol_point point_id current_user db) in
  (Db.routes db' = Db.routes db
   /\ In route (Db.routes db')
   /\ result (get_routes reader db') = result (get_routes reader db))
  /\ (Mongo.count_documents (point_with_id point_id) (Db.patrol_points db')
      + 1
      = Mongo.count_documents (point_with_id point_id) (Db.patrol_points db)
      /\ filter (fun p => negb (point_with_id point_id p))
                (Db.patrol_points db')
         = filter (fun p => negb (point_with_id point_id p))
                  (Db.patrol_points db))
  /\ (Db.users db' = Db.users db
      /\ Db.route_assignments db' = Db.route_assignments db
      /\ Db.attendance db' = Db.attendance db).
Proof.
  intros Hret Hin Hpid db'.
  destruct (delete_patrol_point_frame point_id current_user db)
    as (Hu & Hr & Ha & Hat).
  destruct (delete_patrol_point_returns _ _ _ Hret) as [Hpts Hone].
  fold db' in Hu, Hr, Ha, Hat, Hpts.
  split; [|split].
  - split; [exact Hr|]. split; [now rewrite Hr|].
    unfold get_routes. run. now rewrite Hr.
  - rewrite Hpts. split.
    + rewrite <- (delete_one_matching (point_with_id point_id)
                    (Db.patrol_points db)).
      now rewrite Hone.
    + apply delete_one_others.
  - repeat split; assumption.
Qed.

(** ** Assignment engine *)

(** C4. Listing route assignments returns, without raising or writing,
    a list that depends on the caller's role.  For an officer it is the
    first 1000 of the stored assignments whose [officer_id] is the
    caller's id, so every listed assignment is stored and belongs to the
    caller.  For an admin it is the first 1000 of all stored assignments,
    hence all of them when at most 1000 are stored. *)
Theorem get_route_assignments_role_filtered current_user db :
  exists listed,
    get_route_assignments current_user db = (db, Returns listed)
    /\ (User.role current_user = "officer" ->
        listed
        = firstn 1000
            (filter (fun a => RouteAssignment.officer_id a
                              =? User.id current_user)
                    (Db.route_assignments db))
        /\ forall a, In a listed ->
             In a (Db.route_assignments db)
             /\ RouteAssignment.officer_id a = User.id current_user)
    /\ (User.role current_user = "admin" ->
        listed = firstn 1000 (Db.route_assignments db)
        /\ (length (Db.route_assignments db) <= 1000 ->
            listed = Db.route_assignments db)).
Proof.
  eexists. split; [reflexivity|]. split.
  - intros Hrole. unfold assignments_query. rewrite Hrole. simpl.
    split; [reflexivity|].
    intros a Hin. apply MongoFacts.find_to_list_sound in Hin.
    destruct Hin as [Hq Hin]. split; [exact Hin|].
    now apply String.eqb_eq.
  - intros Hrole. unfold assignments_query. rewrite Hrole. simpl.
    assert (Hall : forall l : list RouteAssignment.t,
              filter (fun _ => true) l = l).
    { induction l as [|x l IH]; simpl; [reflexivity|now rewrite IH]. }
    unfold Mongo.find_to_list. rewrite Hall.
    split; [reflexivity|]. intros Hlen. now apply firstn_all2.
Qed.

Section OrderPoints.
Variable fetched : list PatrolPoint.t.
Variable completed_point_ids : list string.

(** The output follows the route's sequence, keeping the ids for which
    a point was fetched. *)
Lemma order_points_ids ids :
  map (fun v => PatrolPoint.id (PatrolPointView.point v))
      (order_points ids fetched completed_point_ids)
  = filter (fun point_id => existsb (point_with_id point_id) fetched) ids.
Proof.
  induction ids as [|point_id ids IH]; simpl; [reflexivity|].
  fold (point_with_id point_id).
  destruct (find (point_with_id point_id) fetched) as [p|] eqn:E.
  - assert (Hex : existsb (point_with_id point_id) fetched = true).
    { apply existsb_exists. exists p. apply find_some in E.
      split; tauto. }
    rewrite Hex. simpl. rewrite IH. f_equal.
    apply find_some in E. destruct E as [_ E].
    now apply String.eqb_eq in E.
  - assert (Hex : existsb (point_with_id point_id) fetched = false).
    { apply not_true_is_false. intros H. apply existsb_exists in H.
      destruct H as (x & Hin & Hx).
      apply (find_none _ _ E) in Hin. congruence. }
    rewrite Hex. exact IH.
Qed.

(** Each listed entry is the first fetched point with its id, flagged
    by membership of that id in the completed ids. *)
Lemma order_points_entries ids :
  Forall (fun v =>
            let point_id := PatrolPoint.id (PatrolPointView.point v) in
            In point_id ids
            /\ find (point_with_id point_id) fetched
               = Some (PatrolPointView.point v)
            /\ PatrolPointView.completed v
               = existsb (String.eqb point_id) completed_point_ids)
         (order_points ids fetched completed_point_ids).
Proof.
  induction ids as [|point_id ids IH]; simpl; [constructor|].
  assert (IH' : Forall (fun v =>
            let pid := PatrolPoint.id (PatrolPointView.point v) in
            (point_id = pid \/ In pid ids)
            /\ find (point_with_id pid) fetched
               = Some (PatrolPointView.point v)
            /\ PatrolPointView.completed v
               = existsb (String.eqb pid) completed_point_ids)
         (order_points ids fetched completed_point_ids)).
  { eapply Forall_impl; [|exact IH]. simpl. intros v (H1 & H2 & H3).
    tauto. }
  fold (point_with_id point_id).
  destruct (find (point_with_id point_id) fetched) as [p|] eqn:E;
    [|exact IH'].
  constructor; [|exact IH']. simpl.
  assert (Hid : PatrolPoint.id p = point_id).
  { apply find_some in E. destruct E as [_ E].
    now apply String.eqb_eq in E. }
  rewrite Hid. repeat split; auto.
Qed.
End OrderPoints.

Lemma find_filter (A : Type) (q keep : A -> bool) (c : list A) :
  (forall x, q x = true -> keep x = true) ->
  find q (filter keep c) = find q c.
Proof.
  intros H. induction c as [|y c IH]; simpl; [reflexivity|].
  destruct (keep y) eqn:K; simpl.
  - destruct (q y); [reflexivity|exact IH].
  - destruct (q y) eqn:Q; [|exact IH].
    apply H in Q. congruence.
Qed.

Lemma existsb_filter (A : Type) (q keep : A -> bool) (c : list A) :
  (forall x, q x = true -> keep x = true) ->
  existsb q (filter keep c) = existsb q c.
Proof.
  intros H. induction c as [|y c IH]; simpl; [reflexivity|].
  destruct (keep y) eqn:K; simpl.
  - now rewrite IH.
  - destruct (q y) eqn:Q; [|exact IH].
    apply H in Q. congruence.
Qed.

Lemma point_with_id_on_route route point_id p :
  In point_id (Route.patrol_point_ids route) ->
  point_with_id point_id p = true -> point_on_route route p = true.
Proof.
  intros Hin Hp. unfold point_on_route. apply existsb_exists.
  exists point_id. split; [exact Hin|exact Hp].
Qed.

Lemma completed_ids_attended assignment_id point_id (c : list Attendance.t) :
  existsb (String.eqb point_id)
          (map Attendance.patrol_point_id
               (filter (attendance_of assignment_id) c))
  = existsb (attendance_at assignment_id point_id) c.
Proof.
  induction c as [|att c IH]; simpl; [reflexivity|].
  unfold attendance_of, attendance_at in *.
  destruct (Attendance.route_assignment_id att =? assignment_id); simpl.
  - rewrite IH. now rewrite (String.eqb_sym point_id).
  - exact IH.
Qed.

(** C3 (within the query cap).  For an officer whose assignment of today
    exists and whose route resolves, provided the stored points on the
    route and the attendance documents of the assignment number at most
    1000 each, the call returns the assignment, the route and a list of
    checkpoints such that: the ids of the list are the route's
    [patrol_point_ids], in that order, without the ids that resolve to no
    stored patrol point; each entry is the stored point its id resolves
    to; and each entry's [completed] flag tells whether an attendance
    document is stored for (the assignment, the checkpoint). *)
Theorem get_today_assignment_ordered today current_user db a route :
  User.role current_user = "officer" ->
  Mongo.find_one (todays_assignment (User.id current_user) today)
                 (Db.route_assignments db) = Some a ->
  Mongo.find_one (route_with_id (RouteAssignment.route_id a)) (Db.routes db)
    = Some route ->
  length (filter (point_on_route route) (Db.patrol_points db)) <= 1000 ->
  length (filter (attendance_of (RouteAssignment.id a)) (Db.attendance db))
    <= 1000 ->
  exists ordered_points,
    get_today_assignment today current_user db
      = (db, Returns (Today a route ordered_points))
    /\ map (fun v => PatrolPoint.id (PatrolPointView.point v)) ordered_points
       = filter (resolves db) (Route.patrol_point_ids route)
    /\ Forall (fun v =>
                 let point_id := PatrolPoint.id (PatrolPointView.point v) in
                 Mongo.find_one (point_with_id point_id) (Db.patrol_points db)
                   = Some (PatrolPointView.point v)
                 /\ PatrolPointView.completed v
                    = attended (RouteAssignment.id a) point_id db)
              ordered_points.
Proof.
  intros Hrole Ha Hroute Hpts Hatt.
  unfold todays_assignment in Ha. unfold route_with_id in Hroute.
  eexists. split; [|split].
  - unfold get_today_assignment. rewrite Hrole. run.
    rewrite Ha. simpl. rewrite Hroute. simpl. reflexivity.
  - fold (point_on_route route).
    fold (attendance_of (RouteAssignment.id a)).
    rewrite order_points_ids.
    rewrite (MongoFacts.find_to_list_all _ _ Hpts).
    apply filter_ext_in. intros point_id Hin. unfold resolves.
    apply existsb_filter. intros p. now apply point_with_id_on_route.
  - fold (point_on_route route).
    fold (attendance_of (RouteAssignment.id a)).
    rewrite (MongoFacts.find_to_list_all _ _ Hpts).
    rewrite (MongoFacts.find_to_list_all _ _ Hatt).
    eapply Forall_impl; [|apply order_points_entries].
    simpl. intros v (Hin & Hfound & Hflag). split.
    + rewrite <- Hfound. unfold Mongo.find_one. symmetry.
      apply find_filter. intros p. now apply point_with_id_on_route.
    + rewrite Hflag. unfold attended. apply completed_ids_attended.
Qed.

(** * Further properties of the handlers *)

Lemma find_one_some_exists (A : Type) (q : A -> bool) (c : list A) x :
  In x c -> q x = true -> exists y, Mongo.find_one q c = Some y.
Proof.
  unfold Mongo.find_one. intros Hin Hq.
  destruct (find q c) as [y|] eqn:E; [now exists y|].
  apply (find_none _ _ E) in Hin. congruence.
Qed.

(** ** Credentials *)

Section Credentials.
Variable get_password_hash : string -> string -> string.
Variable verify_password : string -> string -> verify_result.
Variable create_access_token : string -> string -> string.
Variable jwt_decode : string -> string -> jwt_result.

(** A login returns only for a stored user whose hash verifies, and then
    without writing. *)
Lemma login_returns now login_data db tok :
  result (login verify_password create_access_token now login_data db)
    = Returns tok ->
  exists user,
    Mongo.find_one (user_with_username (UserLogin.username login_data))
                   (Db.users db) = Some user
    /\ verify_password (UserLogin.password login_data)
                       (User.password_hash user) = Verifies true
    /\ tok = TokenResponse.mk (create_access_token (User.id user) now)
                              "bearer" (user_response user)
    /\ final_db (login verify_password create_access_token now login_data db)
       = db.
Proof.
  unfold login, user_with_username. run.
  destruct (Mongo.find_one _ (Db.users db)) as [user|]; simpl;
    [|discriminate].
  destruct (verify_password _ _) as [[|]|] eqn:Hv; simpl;
    try discriminate.
  intros [= <-]. exists user. repeat split; first [exact Hv|reflexivity].
Qed.

(** X1. Once a registration has returned, a login with the username and
    password of the request returns, provided the hash that was stored
    verifies against the password: the token is the one issued for the new
    user's id, the user view is the one the registration returned, and the
    store is not written. *)
Theorem register_then_login fresh_id now salt now' user_data db resp :
  verify_password (UserCreate.password user_data)
    (get_password_hash salt (UserCreate.password user_data))
    = Verifies true ->
  result (register get_password_hash fresh_id now salt user_data db)
    = Returns resp ->
  login verify_password create_access_token now'
    (UserLogin.mk (UserCreate.username user_data)
                  (UserCreate.password user_data))
    (after (register get_password_hash fresh_id now salt user_data) db)
  = (after (register get_password_hash fresh_id now salt user_data) db,
     Returns (TokenResponse.mk (create_access_token fresh_id now')
                               "bearer" resp)).
Proof.
  intros Hverify Hret.
  destruct (register_returns _ _ _ _ _ _ Hret) as [Hfree Hdb].
  assert (Hresp : resp = UserResponse.mk fresh_id
                           (UserCreate.username user_data)
                           (UserCreate.full_name user_data)
                           (UserCreate.role user_data)
                           (UserCreate.badge_number user_data)).
  { revert Hret. unfold register. run.
    fold (user_with_username (UserCreate.username user_data)).
    rewrite Hfree. simpl. now intros [= <-]. }
  unfold after. rewrite Hdb. unfold login. run.
  fold (user_with_username (UserCreate.username user_data)).
  rewrite (MongoFacts.find_one_insert_miss _ _ _ Hfree).
  unfold user_with_username at 1. simpl. rewrite String.eqb_refl. simpl.
  rewrite Hverify. simpl. now rewrite Hresp.
Qed.

(** X2. The token a returning login hands out, when [jwt.decode] reads
    back the subject it was issued for, resolves through
    [get_current_user] to a stored user with the id of the login's user
    view; the store is not written. *)
Theorem login_token_resolves now now' login_data db tok :
  result (login verify_password create_access_token now login_data db)
    = Returns tok ->
  jwt_decode (TokenResponse.access_token tok) now'
    = Payload (Some (UserResponse.id (TokenResponse.user tok))) ->
  exists user,
    get_current_user jwt_decode now' (TokenResponse.access_token tok) db
      = (db, Returns user)
    /\ User.id user = UserResponse.id (TokenResponse.user tok)
    /\ In user (Db.users db).
Proof.
  intros Hret Hdecode.
  destruct (login_returns _ _ _ Hret) as (u & Hfound & _ & -> & _).
  simpl in *.
  apply MongoFacts.find_one_some_holds in Hfound. destruct Hfound as [_ Hin].
  destruct (@find_one_some_exists _ (user_with_id (User.id u)) _ u Hin)
    as [user Huser].
  { unfold user_with_id. apply String.eqb_refl. }
  exists user. unfold get_current_user. rewrite Hdecode. run.
  fold (user_with_id (User.id u)). rewrite Huser. simpl.
  apply MongoFacts.find_one_some_holds in Huser. destruct Huser as [Hid Hin'].
  unfold user_with_id in Hid. apply String.eqb_eq in Hid.
  repeat split; assumption.
Qed.

(** X3. Resolving the caller never writes the store and fails in one way
    only: whatever the token, the run either returns a stored user whose
    id is the token's subject, or raises with status 401. *)
Theorem get_current_user_outcomes now credentials db :
  final_db (get_current_user jwt_decode now credentials db) = db
  /\ ((exists user,
         result (get_current_user jwt_decode now credentials db)
           = Returns user
         /\ In user (Db.users db)
         /\ jwt_decode credentials now = Payload (Some (User.id user)))
      \/ (exists e,
            result (get_current_user jwt_decode now credentials db)
              = Raises e
            /\ status_code e = 401)).
Proof.
  unfold get_current_user.
  destruct (jwt_decode credentials now) as [[user_id|]| |]; run;
    try (split; [reflexivity|right; eexists; split; reflexivity]).
  fold (user_with_id user_id).
  destruct (Mongo.find_one (user_with_id user_id) (Db.users db))
    as [user|] eqn:E; simpl.
  - split; [reflexivity|]. left. exists user.
    apply MongoFacts.find_one_some_holds in E. destruct E as [Hid Hin].
    unfold user_with_id in Hid. apply String.eqb_eq in Hid.
    rewrite Hid. repeat split; assumption.
  - split; [reflexivity|]. right. eexists. split; reflexivity.
Qed.
End Credentials.

(** ** Authorization and reads *)

Lemma raise_refused (A : Type) code msg db :
  refused code db (@raise A code msg db).
Proof. split; [reflexivity|]. eexists. split; reflexivity. Qed.

(** X4. The role checks come first.  A caller whose role is not "admin"
    is refused with 403, the store untouched, by each of the seven admin
    routes, whatever the request; a caller whose role is not "officer" is
    refused likewise by the two officer routes. *)
Theorem role_gates current_user db :
  (User.role current_user <> "admin" ->
   (forall fresh_id now point_data,
      refused 403 db
        (create_patrol_point fresh_id now point_data current_user db))
   /\ (forall point_id,
         refused 403 db (delete_patrol_point point_id current_user db))
   /\ (forall fresh_id now route_data,
         refused 403 db (create_route fresh_id now route_data current_user db))
   /\ (forall route_id,
         refused 403 db (delete_route route_id current_user db))
   /\ (forall fresh_id now assignment_data,
         refused 403 db
           (create_route_assignment fresh_id now assignment_data
                                    current_user db))
   /\ refused 403 db (get_all_attendance current_user db)
   /\ refused 403 db (get_officers current_user db))
  /\ (User.role current_user <> "officer" ->
      (forall today,
         refused 403 db (get_today_assignment today current_user db))
      /\ (forall fresh_id now attendance_data,
            refused 403 db
              (mark_attendance fresh_id now attendance_data current_user db))).
Proof.
  split; intros Hrole; apply String.eqb_neq in Hrole.
  - unfold create_patrol_point, delete_patrol_point, create_route,
      delete_route, create_route_assignment, get_all_attendance,
      get_officers.
    rewrite Hrole. simpl. repeat split; intros; apply raise_refused.
  - unfold get_today_assignment, mark_attendance.
    rewrite Hrole. simpl. split; intros; apply raise_refused.
Qed.

(** The enrichment loop is a map: no iteration writes, so every record
    is enriched against the same store. *)
Lemma for_each_enrich records db :
  for_each enrich records db = (db, Returns (map (report_row db) records)).
Proof.
  induction records as [|record rest IH]; [reflexivity|].
  simpl. unfold bind at 1. unfold enrich at 1. run.
  rewrite IH. reflexivity.
Qed.

Lemma filter_all (A : Type) (c : list A) : filter (fun _ => true) c = c.
Proof. induction c as [|x c IH]; simpl; [reflexivity|now rewrite IH]. Qed.

(** X5. The handlers that only read leave the store as it was, on every
    input and whatever they return or raise: login, the two "whoami"
    steps, the four listings, the officer's view of today and the
    attendance report. *)
Theorem read_handlers_never_write
    verify_password create_access_token jwt_decode current_user db :
  (forall now login_data,
     final_db (login verify_password create_access_token now login_data db)
     = db)
  /\ (forall now credentials,
        final_db (get_current_user jwt_decode now credentials db) = db)
  /\ final_db (get_me current_user db) = db
  /\ final_db (get_patrol_points current_user db) = db
  /\ final_db (get_routes current_user db) = db
  /\ final_db (get_route_assignments current_user db) = db
  /\ (forall today,
        final_db (get_today_assignment today current_user db) = db)
  /\ final_db (get_all_attendance current_user db) = db
  /\ final_db (get_officers current_user db) = db.
Proof.
  repeat match goal with |- _ /\ _ => split end; intros;
    try reflexivity.
  - unfold login. run.
    destruct (Mongo.find_one _ (Db.users db)) as [user|]; simpl;
      [|reflexivity].
    destruct (verify_password _ _) as [[|]|]; reflexivity.
  - unfold get_current_user.
    destruct (jwt_decode credentials now) as [[user_id|]| |]; run;
      try reflexivity.
    destruct (Mongo.find_one _ (Db.users db)); reflexivity.
  - unfold get_today_assignment.
    destruct (negb _); run; [reflexivity|].
    destruct (Mongo.find_one _ (Db.route_assignments db)) as [a|]; simpl;
      [|reflexivity].
    destruct (Mongo.find_one _ (Db.routes db)); reflexivity.
  - unfold get_all_attendance.
    destruct (negb _); run; [reflexivity|].
    now rewrite for_each_enrich.
  - unfold get_officers. destruct (negb _); reflexivity.
Qed.

(** X6. For an admin the attendance report has one row per stored
    attendance document, the first 10000 in storage order, each carrying
    the document's id, check-in time and notes.  A row whose officer id
    resolves to no user reads "Unknown" with no badge; one whose
    checkpoint id resolves to no patrol point reads "Unknown" for name and
    address; one whose assignment id resolves to nothing has no date. *)
Theorem get_all_attendance_report current_user db :
  User.role current_user = "admin" ->
  let records := firstn 10000 (Db.attendance db) in
  exists rows,
    get_all_attendance current_user db = (db, Returns rows)
    /\ rows = map (report_row db) records
    /\ map AttendanceReport.id rows = map Attendance.id records
    /\ Forall (fun record =>
         let row := report_row db record in
         AttendanceReport.check_in_time row = Attendance.check_in_time record
         /\ AttendanceReport.notes row = Attendance.notes record
         /\ (Mongo.find_one (user_with_id (Attendance.officer_id record))
                            (Db.users db) = None ->
             AttendanceReport.officer_name row = "Unknown"
             /\ AttendanceReport.badge_number row = None)
         /\ (Mongo.find_one
               (point_with_id (Attendance.patrol_point_id record))
               (Db.patrol_points db) = None ->
             AttendanceReport.patrol_point_name row = "Unknown"
             /\ AttendanceReport.patrol_point_address row = "Unknown")
         /\ (Mongo.find_one
               (assignment_with_id (Attendance.route_assignment_id record))
               (Db.route_assignments db) = None ->
             AttendanceReport.date row = None))
       records.
Proof.
  intros Hrole records.
  exists (map (report_row db) records). split; [|split; [|split]].
  - unfold get_all_attendance. rewrite Hrole. run.
    unfold Mongo.find_to_list. rewrite filter_all.
    apply for_each_enrich.
  - reflexivity.
  - rewrite map_map. reflexivity.
  - apply Forall_forall. intros record _. unfold report_row. simpl.
    repeat match goal with
           | |- _ /\ _ => split
           | |- _ = None -> _ => intros ->
           end; reflexivity.
Qed.

(** ** Catalog: creating and deleting *)

Section DeleteOne.
Variable A : Type.
Implicit Types (q : A -> bool) (c : list A) (d : A).

Lemma delete_one_absent q c :
  Mongo.find_one q c = None -> Mongo.delete_one q c = (c, 0).
Proof.
  unfold Mongo.find_one.
  induction c as [|y c IH]; simpl; [reflexivity|].
  destruct (q y); [discriminate|]. intros H. now rewrite (IH H).
Qed.

Lemma delete_one_present q c x :
  Mongo.find_one q c = Some x -> snd (Mongo.delete_one q c) = 1.
Proof.
  unfold Mongo.find_one.
  induction c as [|y c IH]; simpl; [discriminate|].
  destruct (q y); [reflexivity|]. intros H.
  destruct (Mongo.delete_one q c). now apply IH.
Qed.

Lemma delete_one_last q c d :
  Mongo.find_one q c = None -> q d = true ->
  Mongo.delete_one q (Mongo.insert_one d c) = (c, 1).
Proof.
  unfold Mongo.find_one, Mongo.insert_one. intros Hnone Hd.
  induction c as [|y c IH]; simpl in *.
  - now rewrite Hd.
  - destruct (q y); [discriminate|]. now rewrite (IH Hnone).
Qed.

(** Deleting the only match leaves no match. *)
Lemma delete_one_only q c :
  Mongo.count_documents q c = 1 ->
  snd (Mongo.delete_one q c) = 1
  /\ Mongo.find_one q (fst (Mongo.delete_one q c)) = None.
Proof.
  intros Hone.
  assert (Hsnd : snd (Mongo.delete_one q c) = 1).
  { destruct (Mongo.find_one q c) as [x|] eqn:E.
    - exact (@delete_one_present _ _ _ E).
    - apply MongoFacts.find_one_none_count in E. congruence. }
  split; [exact Hsnd|].
  apply MongoFacts.find_one_none_count.
  pose proof (delete_one_matching q c) as H. lia.
Qed.
End DeleteOne.

(** The two deletions, past the role check. *)
Lemma delete_patrol_point_run point_id current_user db :
  User.role current_user = "admin" ->
  delete_patrol_point point_id current_user db
  = (Db.set_patrol_points
       (fun c => fst (Mongo.delete_one (point_with_id point_id) c)) db,
     if (snd (Mongo.delete_one (point_with_id point_id)
                               (Db.patrol_points db)) =? 0)%nat
     then Raises (mkHTTPException 404 "Patrol point not found")
     else Returns "Patrol point deleted successfully").
Proof.
  intros Hrole. unfold delete_patrol_point, point_with_id.
  rewrite Hrole. run. unfold Db.set_patrol_points.
  destruct (Mongo.delete_one _ (Db.patrol_points db)) as [c n]. simpl.
  destruct (n =? 0)%nat; reflexivity.
Qed.

Lemma delete_route_run route_id current_user db :
  User.role current_user = "admin" ->
  delete_route route_id current_user db
  = (Db.set_routes
       (fun c => fst (Mongo.delete_one (route_with_id route_id) c)) db,
     if (snd (Mongo.delete_one (route_with_id route_id) (Db.routes db))
         =? 0)%nat
     then Raises (mkHTTPException 404 "Route not found")
     else Returns "Route deleted successfully").
Proof.
  intros Hrole. unfold delete_route, route_with_id.
  rewrite Hrole. run. unfold Db.set_routes.
  destruct (Mongo.delete_one _ (Db.routes db)) as [c n]. simpl.
  destruct (n =? 0)%nat; reflexivity.
Qed.

(** X7. An admin who deletes a patrol point or a route whose id is not
    stored gets 404, and the store is exactly what it was. *)
Theorem delete_absent current_user db :
  User.role current_user = "admin" ->
  (forall point_id,
     Mongo.find_one (point_with_id point_id) (Db.patrol_points db) = None ->
     delete_patrol_point point_id current_user db
     = (db, Raises (mkHTTPException 404 "Patrol point not found")))
  /\ (forall route_id,
        Mongo.find_one (route_with_id route_id) (Db.routes db) = None ->
        delete_route route_id current_user db
        = (db, Raises (mkHTTPException 404 "Route not found"))).
Proof.
  intros Hrole. split.
  - intros point_id Hnone.
    rewrite (@delete_patrol_point_run _ _ _ Hrole).
    unfold Db.set_patrol_points.
    rewrite (@delete_one_absent _ _ _ Hnone). now destruct db.
  - intros route_id Hnone.
    rewrite (@delete_route_run _ _ _ Hrole).
    unfold Db.set_routes.
    rewrite (@delete_one_absent _ _ _ Hnone). now destruct db.
Qed.

(** X8. When exactly one patrol point has the id, an admin's deletion
    returns, the id then resolves to nothing, and a second deletion of the
    same id raises 404 without changing what the first one left. *)
Theorem delete_patrol_point_twice point_id admin1 admin2 db :
  User.role admin1 = "admin" ->
  User.role admin2 = "admin" ->
  Mongo.count_documents (point_with_id point_id) (Db.patrol_points db) = 1 ->
  let db1 := after (delete_patrol_point point_id admin1) db in
  result (delete_patrol_point point_id admin1 db)
    = Returns "Patrol point deleted successfully"
  /\ resolves db1 point_id = false
  /\ delete_patrol_point point_id admin2 db1
     = (db1, Raises (mkHTTPException 404 "Patrol point not found")).
Proof.
  intros Hrole1 Hrole2 Hone db1.
  destruct (@delete_one_only _ _ _ Hone) as [Hsnd Hgone].
  assert (Hdb1 : Db.patrol_points db1
                 = fst (Mongo.delete_one (point_with_id point_id)
                                         (Db.patrol_points db))).
  { unfold db1, after. now rewrite (@delete_patrol_point_run _ _ _ Hrole1). }
  split; [|split].
  - rewrite (@delete_patrol_point_run _ _ _ Hrole1).
    unfold result. simpl. now rewrite Hsnd.
  - unfold resolves. rewrite Hdb1.
    apply not_true_is_false. intros H. apply existsb_exists in H.
    destruct H as (p & Hin & Hp).
    apply (find_none _ _ Hgone) in Hin. congruence.
  - destruct (@delete_absent _ db1 Hrole2) as [Habsent _].
    apply Habsent. now rewrite Hdb1.
Qed.

(** X9. Creating a patrol point under an id no stored point has, and then
    deleting that id, gives back the store as it was before the
    creation. *)
Theorem create_then_delete_patrol_point
    fresh_id now point_data admin1 admin2 db :
  User.role admin1 = "admin" ->
  User.role admin2 = "admin" ->
  Mongo.find_one (point_with_id fresh_id) (Db.patrol_points db) = None ->
  delete_patrol_point fresh_id admin2
    (after (create_patrol_point fresh_id now point_data admin1) db)
  = (db, Returns "Patrol point deleted successfully").
Proof.
  intros Hrole1 Hrole2 Hfresh.
  rewrite (@delete_patrol_point_run _ _ _ Hrole2).
  unfold after, create_patrol_point. rewrite Hrole1. run.
  unfold Db.set_patrol_points. simpl.
  rewrite (@delete_one_last _ _ _ _ Hfresh).
  - now destruct db.
  - unfold point_with_id. simpl. apply String.eqb_refl.
Qed.

(** X10. A patrol point an admin creates is stored last.  It is listed,
    last, as long as fewer than 1000 points were stored before; once 1000
    are stored the listing is what it was and the new point is not on
    it. *)
Theorem create_patrol_point_listed
    fresh_id now point_data current_user reader db :
  User.role current_user = "admin" ->
  let point :=
    PatrolPoint.mk fresh_id
      (PatrolPointCreate.name point_data)
      (PatrolPointCreate.description point_data)
      (PatrolPointCreate.address point_data)
      (PatrolPointCreate.latitude point_data)
      (PatrolPointCreate.longitude point_data) now in
  let db1 :=
    after (create_patrol_point fresh_id now point_data current_user) db in
  result (create_patrol_point fresh_id now point_data current_user db)
    = Returns point
  /\ Db.patrol_points db1 = (Db.patrol_points db ++ [point])%list
  /\ (length (Db.patrol_points db) < 1000 ->
      result (get_patrol_points reader db1)
      = Returns (Db.patrol_points db ++ [point])%list)
  /\ (1000 <= length (Db.patrol_points db) ->
      result (get_patrol_points reader db1)
      = result (get_patrol_points reader db)).
Proof.
  intros Hrole point db1.
  assert (Hdb1 : Db.patrol_points db1 = (Db.patrol_points db ++ [point])%list).
  { unfold db1, after, create_patrol_point. rewrite Hrole. reflexivity. }
  split; [|split; [exact Hdb1|split]].
  - unfold create_patrol_point. rewrite Hrole. reflexivity.
  - intros Hlt. unfold get_patrol_points. run.
    unfold Mongo.find_to_list. rewrite filter_all, Hdb1.
    f_equal. apply firstn_all2. rewrite length_app. simpl. lia.
  - intros Hge. unfold get_patrol_points. run.
    unfold Mongo.find_to_list. rewrite !filter_all, Hdb1.
    f_equal. rewrite firstn_app.
    replace (1000 - length (Db.patrol_points db)) with 0 by lia.
    simpl. apply app_nil_r.
Qed.

(** ** Assignments and the view of today *)

(** The view of today for an officer, case by case. *)
Lemma get_today_assignment_run today current_user db :
  User.role current_user = "officer" ->
  get_today_assignment today current_user db
  = (db,
     match Mongo.find_one (todays_assignment (User.id current_user) today)
                          (Db.route_assignments db) with
     | None => Returns (NoRoute "No route assigned for today")
     | Some a =>
         match Mongo.find_one (route_with_id (RouteAssignment.route_id a))
                              (Db.routes db) with
         | None => Raises (mkHTTPException 404 "Route not found")
         | Some route =>
             Returns
               (Today a route
                  (order_points (Route.patrol_point_ids route)
                     (Mongo.find_to_list (point_on_route route) 1000
                                         (Db.patrol_points db))
                     (map Attendance.patrol_point_id
                        (Mongo.find_to_list
                           (attendance_of (RouteAssignment.id a)) 1000
                           (Db.attendance db)))))
         end
     end).
Proof.
  intros Hrole. unfold get_today_assignment, todays_assignment, route_with_id.
  rewrite Hrole. run.
  destruct (Mongo.find_one _ (Db.route_assignments db)) as [a|]; simpl;
    [|reflexivity].
  destruct (Mongo.find_one _ (Db.routes db)); reflexivity.
Qed.

(** X11. An officer with no assignment dated today is answered with the
    message "No route assigned for today", not with an error; an officer
    whose assignment of today names a route that is not stored is answered
    with 404 "Route not found". *)
Theorem get_today_assignment_nothing_to_show today current_user db :
  User.role current_user = "officer" ->
  (Mongo.find_one (todays_assignment (User.id current_user) today)
                  (Db.route_assignments db) = None ->
   get_today_assignment today current_user db
   = (db, Returns (NoRoute "No route assigned for today")))
  /\ (forall a,
        Mongo.find_one (todays_assignment (User.id current_user) today)
                       (Db.route_assignments db) = Some a ->
        Mongo.find_one (route_with_id (RouteAssignment.route_id a))
                       (Db.routes db) = None ->
        get_today_assignment today current_user db
        = (db, Raises (mkHTTPException 404 "Route not found"))).
Proof.
  intros Hrole. rewrite (@get_today_assignment_run today _ db Hrole).
  split.
  - now intros ->.
  - intros a -> ->. reflexivity.
Qed.

(** X12. Deleting a route is not cascaded either.  When an officer's
    assignment of today names a route stored once, an admin's deletion of
    that route returns and leaves every assignment as it was, and the
    officer's view of today then fails with 404 "Route not found". *)
Theorem delete_route_breaks_today today officer admin db a :
  User.role officer = "officer" ->
  User.role admin = "admin" ->
  Mongo.find_one (todays_assignment (User.id officer) today)
                 (Db.route_assignments db) = Some a ->
  Mongo.count_documents (route_with_id (RouteAssignment.route_id a))
                        (Db.routes db) = 1 ->
  let db1 := after (delete_route (RouteAssignment.route_id a) admin) db in
  result (delete_route (RouteAssignment.route_id a) admin db)
    = Returns "Route deleted successfully"
  /\ Db.route_assignments db1 = Db.route_assignments db
  /\ get_today_assignment today officer db1
     = (db1, Raises (mkHTTPException 404 "Route not found")).
Proof.
  intros Hofficer Hadmin Ha Hone db1.
  destruct (@delete_one_only _ _ _ Hone) as [Hsnd Hgone].
  assert (Hdb1 : db1
    = Db.set_routes
        (fun c => fst (Mongo.delete_one
                         (route_with_id (RouteAssignment.route_id a)) c))
        db).
  { unfold db1, after. now rewrite (@delete_route_run _ _ _ Hadmin). }
  split; [|split].
  - rewrite (@delete_route_run _ _ _ Hadmin).
    unfold result. simpl. now rewrite Hsnd.
  - now rewrite Hdb1.
  - rewrite (@get_today_assignment_run today _ db1 Hofficer).
    assert (Hras : Db.route_assignments db1 = Db.route_assignments db)
      by now rewrite Hdb1.
    assert (Hroutes : Db.routes db1
      = fst (Mongo.delete_one (route_with_id (RouteAssignment.route_id a))
                              (Db.routes db)))
      by now rewrite Hdb1.
    rewrite Hras, Ha, Hroutes, Hgone. reflexivity.
Qed.

(** X13. Nothing keeps an officer to one assignment per day, and the
    view of today shows the first stored: once an officer has an
    assignment dated today, creating any further assignment does not
    change what the view of today returns. *)
Theorem second_assignment_same_day_hidden
    today officer admin fresh_id now assignment_data db a :
  User.role admin = "admin" ->
  Mongo.find_one (todays_assignment (User.id officer) today)
                 (Db.route_assignments db) = Some a ->
  result (get_today_assignment today officer
            (after (create_route_assignment fresh_id now assignment_data
                                            admin) db))
  = result (get_today_assignment today officer db).
Proof.
  intros Hadmin Ha.
  destruct (String.eqb_spec (User.role officer) "officer") as [Hrole|Hrole].
  - rewrite !(@get_today_assignment_run today _ _ Hrole).
    unfold after, create_route_assignment. rewrite Hadmin. run.
    rewrite (MongoFacts.find_one_insert_hit _ _ _ Ha), Ha. reflexivity.
  - apply String.eqb_neq in Hrole. unfold get_today_assignment.
    rewrite Hrole. reflexivity.
Qed.

Lemma order_points_none_completed ids fetched :
  Forall (fun v => PatrolPointView.completed v = false)
         (order_points ids fetched []).
Proof.
  eapply Forall_impl; [|apply order_points_entries].
  simpl. intros v (_ & _ & Hflag). exact Hflag.
Qed.

Lemma count_zero_filter (A : Type) (q : A -> bool) (c : list A) :
  Mongo.count_documents q c = 0 -> filter q c = [].
Proof. unfold Mongo.count_documents. now intros H%length_zero_iff_nil. Qed.

(** X14. The first view of a new assignment.  An admin assigns a stored
    route to an officer who has nothing for that date, under an
    assignment id no attendance document refers to; with at most 1000
    stored points on the route, the officer's view of that date returns
    the new assignment with status "assigned", the route, and the route's
    resolving checkpoints in route order, none of them completed. *)
Theorem new_assignment_view
    fresh_id now today officer admin route_id db route :
  User.role admin = "admin" ->
  User.role officer = "officer" ->
  Mongo.find_one (todays_assignment (User.id officer) today)
                 (Db.route_assignments db) = None ->
  Mongo.find_one (route_with_id route_id) (Db.routes db) = Some route ->
  attendance_count fresh_id db = 0 ->
  length (filter (point_on_route route) (Db.patrol_points db)) <= 1000 ->
  let db1 :=
    after (create_route_assignment fresh_id now
             (RouteAssignmentCreate.mk (User.id officer) route_id today)
             admin) db in
  exists ordered_points,
    get_today_assignment today officer db1
    = (db1,
       Returns (Today (RouteAssignment.mk fresh_id (User.id officer) route_id
                                          today "assigned" now)
                      route ordered_points))
    /\ map (fun v => PatrolPoint.id (PatrolPointView.point v)) ordered_points
       = filter (resolves db) (Route.patrol_point_ids route)
    /\ Forall (fun v => PatrolPointView.completed v = false) ordered_points.
Proof.
  intros Hadmin Hofficer Hnone Hroute Hzero Hcap db1.
  assert (Hdb1 : db1
    = Db.set_route_assignments
        (Mongo.insert_one
           (RouteAssignment.mk fresh_id (User.id officer) route_id today
                               "assigned" now)) db).
  { unfold db1, after, create_route_assignment. now rewrite Hadmin. }
  eexists. split; [|split].
  - rewrite (@get_today_assignment_run today _ db1 Hofficer).
    assert (Hras : Db.route_assignments db1
      = Mongo.insert_one
          (RouteAssignment.mk fresh_id (User.id officer) route_id today
                              "assigned" now)
          (Db.route_assignments db))
      by now rewrite Hdb1.
    assert (Hrest : Db.routes db1 = Db.routes db
                    /\ Db.patrol_points db1 = Db.patrol_points db
                    /\ Db.attendance db1 = Db.attendance db)
      by now rewrite Hdb1.
    destruct Hrest as (-> & -> & ->).
    rewrite Hras, (MongoFacts.find_one_insert_miss _ _ _ Hnone).
    unfold todays_assignment at 1. simpl. rewrite !String.eqb_refl. simpl.
    rewrite Hroute. reflexivity.
  - rewrite order_points_ids.
    rewrite (MongoFacts.find_to_list_all _ _ Hcap).
    apply filter_ext_in. intros point_id Hin. unfold resolves.
    apply existsb_filter. intros p. now apply point_with_id_on_route.
  - unfold Mongo.find_to_list.
    rewrite (count_zero_filter _ _ Hzero). rewrite firstn_nil. simpl.
    apply order_points_none_completed.
Qed.

(** ** Invariants of the writes *)

Lemma NoDup_map_insert (A B : Type) (f : A -> B) (c : list A) (d : A) :
  NoDup (map f c) ->
  (forall x, In x c -> f x <> f d) ->
  NoDup (map f (Mongo.insert_one d c)).
Proof.
  intros Hnodup Hnew. unfold Mongo.insert_one. rewrite map_app. simpl.
  apply NoDup_app.
  - exact Hnodup.
  - constructor; [intros []|constructor].
  - intros y Hy [<-|[]]. apply in_map_iff in Hy.
    destruct Hy as (x & Hfx & Hin). exact (Hnew x Hin Hfx).
Qed.

(** X15. Usernames stay unique: if no two stored users share a username
    before a registration, none do after it, whatever the request and
    whether it returns or raises. *)
Theorem register_keeps_usernames_unique
    get_password_hash fresh_id now salt user_data db :
  NoDup (map User.username (Db.users db)) ->
  NoDup (map User.username
           (Db.users
              (after (register get_password_hash fresh_id now salt user_data)
                     db))).
Proof.
  intros Hnodup. unfold after, register. run.
  fold (user_with_username (UserCreate.username user_data)).
  destruct (Mongo.find_one (user_with_username (UserCreate.username user_data))
              (Db.users db)) eqn:E; simpl; [exact Hnodup|].
  apply NoDup_map_insert; [exact Hnodup|].
  intros u Hin Heq. simpl in Heq.
  apply (find_none _ _ E) in Hin. unfold user_with_username in Hin.
  apply String.eqb_neq in Hin. contradiction.
Qed.

(** A call that raises has written nothing. *)
Lemma mark_attendance_raises fresh_id now attendance_data current_user db e :
  result (mark_attendance fresh_id now attendance_data current_user db)
    = Raises e ->
  final_db (mark_attendance fresh_id now attendance_data current_user db)
  = db.
Proof.
  destruct (String.eqb_spec (User.role current_user) "officer")
    as [Hrole|Hrole].
  2:{ now rewrite (@mark_attendance_forbidden fresh_id now _ _ db Hrole). }
  destruct (Mongo.find_one
              (assignment_with_id
                 (AttendanceCreate.route_assignment_id attendance_data))
              (Db.route_assignments db)) as [a|] eqn:Ha.
  2:{ now rewrite (@mark_attendance_not_found fresh_id now _ _ _ Hrole Ha). }
  destruct (Mongo.find_one
              (attendance_at
                 (AttendanceCreate.route_assignment_id attendance_data)
                 (AttendanceCreate.patrol_point_id attendance_data))
              (Db.attendance db)) as [existing|] eqn:Hex.
  - now rewrite (@mark_attendance_conflict fresh_id now _ _ _ _ _
                   Hrole Ha Hex).
  - rewrite (@mark_attendance_success fresh_id now _ _ _ _ Hrole Ha Hex).
    discriminate.
Qed.

(** X16. Attendance pairs stay unique: if no two stored attendance
    documents are for the same (assignment, checkpoint) pair before a
    mark-attendance call, none are after it, whatever the request and
    whether it returns or raises. *)
Theorem mark_attendance_keeps_pairs_unique
    fresh_id now attendance_data current_user db :
  NoDup (map pair_of (Db.attendance db)) ->
  NoDup (map pair_of
           (Db.attendance
              (after (mark_attendance fresh_id now attendance_data
                                      current_user) db))).
Proof.
  intros Hnodup. unfold after.
  destruct (result (mark_attendance fresh_id now attendance_data
                                    current_user db)) as [att|e] eqn:Hres.
  - destruct (mark_attendance_final _ _ _ _ _ Hres) as (Hatt & Hins & _).
    destruct (mark_attendance_returns _ _ _ _ _ Hres) as (_ & _ & Hex).
    rewrite Hins. apply NoDup_map_insert; [exact Hnodup|].
    intros x Hin Heq. apply (find_none _ _ Hex) in Hin.
    rewrite Hatt in Heq. unfold pair_of, attendance_doc in Heq.
    simpl in Heq. injection Heq as Ha Hp.
    unfold attendance_at in Hin. rewrite Ha, Hp, !String.eqb_refl in Hin.
    discriminate.
  - now rewrite (mark_attendance_raises _ _ _ _ _ Hres).
Qed.

Lemma update_one_without_status q s (c : list RouteAssignment.t) :
  map without_status (Mongo.update_one q (RouteAssignment.set_status s) c)
  = map without_status c.
Proof.
  induction c as [|a c IH]; simpl; [reflexivity|].
  destruct (q a); simpl; [reflexivity|now rewrite IH].
Qed.

Lemma update_one_elsewhere (A : Type) (q : A -> bool) (upd : A -> A)
    (c : list A) :
  filter (fun x => negb (q x)) (Mongo.update_one q upd c)
  = filter (fun x => negb (q x)) c
  \/ exists x, q x = true /\ q (upd x) = false.
Proof.
  induction c as [|y c IH]; simpl; [now left|].
  destruct (q y) eqn:E; simpl.
  - destruct (q (upd y)) eqn:E'; simpl.
    + now left.
    + right. now exists y.
  - rewrite E. simpl. destruct IH as [->|IH]; [now left|now right].
Qed.

(** X17. Of the assignments, a mark-attendance call writes a status and
    nothing else.  Whatever the request and the outcome, the stored
    assignments are afterwards the same documents in the same order up to
    their status fields, the assignments with another id are untouched,
    and users, patrol points and routes are as they were. *)
Theorem mark_attendance_writes_status_only
    fresh_id now attendance_data current_user db :
  let db' :=
    after (mark_attendance fresh_id now attendance_data current_user) db in
  map without_status (Db.route_assignments db')
    = map without_status (Db.route_assignments db)
  /\ filter (fun a => negb (assignment_with_id
                              (AttendanceCreate.route_assignment_id
                                 attendance_data) a))
            (Db.route_assignments db')
     = filter (fun a => negb (assignment_with_id
                                (AttendanceCreate.route_assignment_id
                                   attendance_data) a))
              (Db.route_assignments db)
  /\ Db.users db' = Db.users db
  /\ Db.patrol_points db' = Db.patrol_points db
  /\ Db.routes db' = Db.routes db.
Proof.
  intros db'. unfold db', after.
  destruct (result (mark_attendance fresh_id now attendance_data
                                    current_user db)) as [att|e] eqn:Hres.
  2:{ rewrite (mark_attendance_raises _ _ _ _ _ Hres). repeat split. }
  destruct (mark_attendance_final _ _ _ _ _ Hres) as (_ & _ & _ & Hu & Hp & Hr).
  destruct (mark_attendance_returns _ _ _ _ _ Hres) as (Hrole & [a Ha] & Hex).
  split; [|split; [|repeat split; assumption]].
  - rewrite (@mark_attendance_success fresh_id now _ _ _ _ Hrole Ha Hex).
    unfold final_db. simpl.
    destruct (Mongo.find_one (route_with_id _) (Db.routes db)); simpl;
      [|reflexivity].
    destruct (_ <=? _)%nat; simpl;
      [apply update_one_without_status|].
    destruct (_ <? _)%nat; simpl;
      [apply update_one_without_status|reflexivity].
  - assert (Hupd : forall s,
      filter (fun a => negb (assignment_with_id
                               (AttendanceCreate.route_assignment_id
                                  attendance_data) a))
             (Mongo.update_one
                (assignment_with_id
                   (AttendanceCreate.route_assignment_id attendance_data))
                (RouteAssignment.set_status s) (Db.route_assignments db))
      = filter (fun a => negb (assignment_with_id
                                 (AttendanceCreate.route_assignment_id
                                    attendance_data) a))
               (Db.route_assignments db)).
    { intros s.
      destruct (update_one_elsewhere
                  (assignment_with_id
                     (AttendanceCreate.route_assignment_id attendance_data))
                  (RouteAssignment.set_status s) (Db.route_assignments db))
        as [H|(x & Hx & Hx')]; [exact H|].
      rewrite assignment_with_id_set_status in Hx'. congruence. }
    rewrite (@mark_attendance_success fresh_id now _ _ _ _ Hrole Ha Hex).
    unfold final_db. simpl.
    destruct (Mongo.find_one (route_with_id _) (Db.routes db)); simpl;
      [|reflexivity].
    destruct (_ <=? _)%nat; simpl; [apply Hupd|].
    destruct (_ <? _)%nat; simpl; [apply Hupd|reflexivity].
Qed.

(** ** Progress along a patrol *)

Lemma status_for_completed k n :
  status_for k n = "completed" <-> k <= n.
Proof.
  unfold status_for. destruct (Nat.leb_spec k n) as [Hle|Hlt]; split;
    intros Hyp; try reflexivity; try assumption; try discriminate; lia.
Qed.

(** X18. Along a patrol the status does not fall back.  For check-ins at
    distinct checkpoints not attended before, by an officer on an
    assignment whose route resolves: if the status is "completed" after
    some (at least one) of them, it is "completed" after any further
    ones. *)
Theorem patrol_completed_stays
    fresh now caller assignment_id route visits more i db :
  User.role caller = "officer" ->
  on_patrol assignment_id route db ->
  NoDup (visits ++ more) ->
  (forall point_id, In point_id (visits ++ more) ->
     attended assignment_id point_id db = false) ->
  visits <> [] ->
  status_of assignment_id (patrol fresh now caller assignment_id visits i db)
    = Some "completed" ->
  status_of assignment_id
    (patrol fresh now caller assignment_id (visits ++ more) i db)
    = Some "completed".
Proof.
  intros Hrole Hon Hnodup Hfree Hne Hdone.
  destruct (@patrol_status fresh now caller assignment_id route Hrole
              visits i db Hon (NoDup_app_remove_r _ _ Hnodup))
    as (_ & _ & Hs).
  { intros p Hin. apply Hfree. apply in_or_app. now left. }
  destruct (@patrol_status fresh now caller assignment_id route Hrole
              (visits ++ more) i db Hon Hnodup Hfree)
    as (_ & _ & Hs').
  rewrite (Hs Hne) in Hdone. injection Hdone as Hdone.
  apply status_for_completed in Hdone.
  rewrite Hs'.
  - f_equal. apply status_for_completed. rewrite length_app. lia.
  - intros Happ. apply app_eq_nil in Happ. destruct Happ as [-> _].
    now apply Hne.
Qed.

Lemma patrol_elsewhere fresh now caller assignment_id route :
  User.role caller = "officer" ->
  forall visits i db,
    on_patrol assignment_id route db ->
    NoDup visits ->
    (forall point_id, In point_id visits ->
       attended assignment_id point_id db = false) ->
    forall other, ~ In other visits ->
      attended assignment_id other
        (patrol fresh now caller assignment_id visits i db)
      = attended assignment_id other db.
Proof.
  intros Hrole.
  induction visits as [|point_id rest IH]; intros i db Hon Hnodup Hfree
    other Hother; [reflexivity|].
  inversion Hnodup as [|? ? Hnotin Hrest]; subst.
  destruct (@patrol_step fresh now caller assignment_id route Hrole
              i point_id db Hon (Hfree point_id (or_introl eq_refl)))
    as (Hon1 & _ & _ & Hothers).
  simpl. rewrite IH.
  - apply Hothers. intros ->. apply Hother. now left.
  - exact Hon1.
  - exact Hrest.
  - intros p Hin. rewrite Hothers.
    + apply Hfree. now right.
    + intros ->. contradiction.
  - intros Hin. apply Hother. now right.
Qed.

Lemma attendance_count_zero_attended assignment_id point_id db :
  attendance_count assignment_id db = 0 ->
  attended assignment_id point_id db = false.
Proof.
  unfold attendance_count, attended. intros H.
  apply count_zero_filter in H.
  apply not_true_is_false. intros Hex. apply existsb_exists in Hex.
  destruct Hex as (att & Hin & Hat).
  assert (Hf : In att (filter (attendance_of assignment_id)
                              (Db.attendance db))).
  { apply filter_In. split; [exact Hin|].
    unfold attendance_at in Hat. apply andb_prop in Hat. tauto. }
  rewrite H in Hf. exact Hf.
Qed.

(** X19. The status counts check-ins, wherever they were made.  An
    officer who checks in, under an assignment without attendance, at as
    many distinct ids as the route has checkpoints, none of them on the
    route, leaves the assignment "completed" with no checkpoint of the
    route attended. *)
Theorem completed_without_visiting_route
    fresh now caller assignment_id route visits i db :
  User.role caller = "officer" ->
  on_patrol assignment_id route db ->
  attendance_count assignment_id db = 0 ->
  NoDup visits ->
  visits <> [] ->
  (forall point_id, In point_id visits ->
     ~ In point_id (Route.patrol_point_ids route)) ->
  length (Route.patrol_point_ids route) <= length visits ->
  status_of assignment_id (patrol fresh now caller assignment_id visits i db)
    = Some "completed"
  /\ forall point_id, In point_id (Route.patrol_point_ids route) ->
       attended assignment_id point_id
         (patrol fresh now caller assignment_id visits i db) = false.
Proof.
  intros Hrole Hon Hzero Hnodup Hne Hoff Hlen.
  assert (Hfree : forall p, In p visits ->
            attended assignment_id p db = false).
  { intros p _. now apply attendance_count_zero_attended. }
  destruct (@patrol_status fresh now caller assignment_id route Hrole
              visits i db Hon Hnodup Hfree) as (_ & _ & Hs).
  split.
  - rewrite (Hs Hne), Hzero. f_equal.
    apply status_for_completed. simpl. exact Hlen.
  - intros p Hin.
    rewrite (@patrol_elsewhere fresh now caller assignment_id route Hrole
               visits i db Hon Hnodup Hfree).
    + now apply attendance_count_zero_attended.
    + intros Hv. exact (Hoff p Hv Hin).
Qed.

(** ** The officers' list *)

(** X20. For an admin the officers' list holds the views of the first
    1000 stored users with role "officer": every entry has that role and
    is the view of a stored user, and when at most 1000 officers are
    stored every one of them is listed.  The store is not written. *)
Theorem get_officers_lists_officers current_user db :
  User.role current_user = "admin" ->
  exists listed,
    get_officers current_user db = (db, Returns listed)
    /\ Forall (fun v =>
                 UserResponse.role v = "officer"
                 /\ exists u, In u (Db.users db) /\ v = user_response u)
              listed
    /\ (Mongo.count_documents (fun u => User.role u =? "officer")
                              (Db.users db) <= 1000 ->
        forall u, In u (Db.users db) -> User.role u = "officer" ->
          In (user_response u) listed).
Proof.
  intros Hrole. eexists. split; [|split].
  - unfold get_officers. rewrite Hrole. reflexivity.
  - apply Forall_forall. intros v Hv. apply in_map_iff in Hv.
    destruct Hv as (u & <- & Hin).
    apply MongoFacts.find_to_list_sound in Hin. destruct Hin as [Hq Hin].
    split; [now apply String.eqb_eq|now exists u].
  - intros Hcap u Hin Hofficer. apply in_map.
    rewrite (MongoFacts.find_to_list_all _ _ Hcap).
    apply filter_In. split; [exact Hin|now apply String.eqb_eq].
Qed.

(** ** The deployment, checked *)

Example scenario_db0 :
  Scenario.db0
  = Db.mk [Scenario.chief; Scenario.alice; Scenario.bob]
          [Scenario.lobby; Scenario.depot; Scenario.tower]
          [Scenario.round]
          [Scenario.alice_round; Scenario.bob_lost]
          [].
Proof. reflexivity. Qed.

Example scenario_toy_verify :
  Scenario.toy_verify "alicepw" (User.password_hash Scenario.alice) = true
  /\ Scenario.toy_verify "guess" (User.password_hash Scenario.alice) = false.
Proof. split; reflexivity. Qed.

(** Alice's round in route order and in another order. *)
Example scenario_round_in_two_orders :
  status_of "a-1" Scenario.db0 = Some "assigned"
  /\ status_of "a-1"
       (patrol Scenario.att_id Scenario.t0 Scenario.alice "a-1"
               ["p-2"] 0 Scenario.db0)
     = Some "in_progress"
  /\ status_of "a-1"
       (patrol Scenario.att_id Scenario.t0 Scenario.alice "a-1"
               ["p-2"; "p-1"; "p-3"] 0 Scenario.db0)
     = Some "completed"
  /\ status_of "a-1"
       (patrol Scenario.att_id Scenario.t0 Scenario.alice "a-1"
               ["p-3"; "p-2"; "p-1"] 0 Scenario.db0)
     = Some "completed".
Proof. repeat split; reflexivity. Qed.

(** ** The theorems at the deployment *)

Section AtTheDeployment.
Import Scenario.

(** Alice checks in at the lobby, one of three checkpoints: the
    assignment is in progress. *)
Lemma mark_attendance_status_witness :
  status_of "a-1" (after (mark_attendance "att-0" t0 lobby_checkin alice) db0)
  = Some "in_progress".
Proof.
  pose proof (@mark_attendance_status "att-0" t0 lobby_checkin alice db0
                (attendance_doc "att-0" t0 lobby_checkin alice)
                alice_round round eq_refl eq_refl eq_refl) as H.
  cbv zeta in H. destruct H as (_ & _ & H).
  apply H. vm_compute. lia.
Defined.

(** Bob repeats Alice's check-in at the lobby: refused, store as it
    was, one document for the pair. *)
Lemma mark_attendance_twice_witness :
  mark_attendance "att-1" t0 lobby_again bob
    (after (mark_attendance "att-0" t0 lobby_checkin alice) db0)
  = (after (mark_attendance "att-0" t0 lobby_checkin alice) db0,
     Raises (mkHTTPException 400
               "Attendance already marked for this point"))
  /\ Mongo.count_documents (attendance_at "a-1" "p-1")
       (Db.attendance
          (after (mark_attendance "att-0" t0 lobby_checkin alice) db0))
     = 1.
Proof.
  exact (@mark_attendance_twice "att-0" t0 lobby_checkin alice
           "att-1" t0 lobby_again bob db0
           (attendance_doc "att-0" t0 lobby_checkin alice)
           eq_refl eq_refl eq_refl eq_refl).
Defined.

(** After Alice's check-in at the lobby, her view of today lists the
    route's checkpoints in route order (depot, lobby, tower; they are
    stored lobby, depot, tower), the lobby alone completed. *)
Lemma get_today_assignment_ordered_witness :
  exists ordered_points,
    get_today_assignment today alice
      (after (mark_attendance "att-0" t0 lobby_checkin alice) db0)
    = (after (mark_attendance "att-0" t0 lobby_checkin alice) db0,
       Returns (Today (RouteAssignment.set_status "in_progress" alice_round)
                      round ordered_points))
    /\ map (fun v => PatrolPoint.id (PatrolPointView.point v))
           ordered_points
       = ["p-2"; "p-1"; "p-3"]
    /\ map PatrolPointView.completed ordered_points = [false; true; false].
Proof.
  destruct (@get_today_assignment_ordered today alice
              (after (mark_attendance "att-0" t0 lobby_checkin alice) db0)
              (RouteAssignment.set_status "in_progress" alice_round) round
              eq_refl eq_refl eq_refl
              (proj1 (Nat.leb_le 3 1000) eq_refl)
              (proj1 (Nat.leb_le 1 1000) eq_refl))
    as (ordered_points & Hrun & Hids & Hall).
  exists ordered_points. split; [exact Hrun|]. split; [exact Hids|].
  injection Hrun as <-. reflexivity.
Defined.

(** Alice lists assignments and gets her own only. *)
Lemma get_route_assignments_role_filtered_witness :
  get_route_assignments alice db0 = (db0, Returns [alice_round]).
Proof.
  destruct (get_route_assignments_role_filtered alice db0)
    as (listed & Hrun & Hofficer & _).
  rewrite Hrun. destruct (Hofficer eq_refl) as [-> _]. reflexivity.
Defined.

(** Bob checks in under Alice's assignment: accepted, stamped with
    Bob's id. *)
Lemma mark_attendance_no_ownership_check_witness :
  RouteAssignment.officer_id alice_round = "u-1"
  /\ exists att,
       result (mark_attendance "att-0" t0 lobby_checkin bob db0) = Returns att
       /\ Attendance.officer_id att = "u-2"
       /\ Attendance.route_assignment_id att = "a-1".
Proof.
  split; [reflexivity|].
  destruct (proj2 (@mark_attendance_no_ownership_check
                     "att-0" t0 lobby_checkin bob db0 eq_refl)
                  alice_round eq_refl eq_refl)
    as (att & Hret & Hofficer & Hassignment & _).
  exists att. repeat split; assumption.
Defined.

(** Bob checks in under his assignment, whose route is gone. *)
Lemma mark_attendance_dangling_route_witness :
  result (mark_attendance "att-0" t0
            (AttendanceCreate.mk "a-2" "p-1" None) bob db0)
  = Returns (Attendance.mk "att-0" "u-2" "a-2" "p-1" t0 None)
  /\ status_of "a-2"
       (after (mark_attendance "att-0" t0
                 (AttendanceCreate.mk "a-2" "p-1" None) bob) db0)
     = Some "assigned".
Proof.
  destruct (@mark_attendance_dangling_route "att-0" t0
              (AttendanceCreate.mk "a-2" "p-1" None) bob db0 bob_lost
              eq_refl eq_refl eq_refl eq_refl)
    as (Hret & _ & _ & Hstatus).
  split; [exact Hret|exact Hstatus].
Defined.

(** A second "bob" tries to register. *)
Lemma register_duplicate_username_witness :
  register toy_hash "u-9" t0 "s9"
    (UserCreate.mk "bob" "letmein" "Impostor" "admin" None) registered
  = (registered, Raises (mkHTTPException 400 "Username already exists")).
Proof.
  pose proof (@register_duplicate_username toy_hash
                "u-2" t0 "s2" "u-9" t0 "s9"
                (UserCreate.mk "bob" "bobpw" "Bob B" "officer" (Some "B-2"))
                (UserCreate.mk "bob" "letmein" "Impostor" "admin" None)
                (after (register toy_hash "u-1" t0 "s1"
                          (UserCreate.mk "alice" "alicepw" "Alice A"
                                         "officer" (Some "B-1")))
                   (after (register toy_hash "u-0" t0 "s0"
                             (UserCreate.mk "chief" "hunter2" "The Chief"
                                            "admin" None))
                      empty))
                (UserResponse.mk "u-2" "bob" "Bob B" "officer" (Some "B-2"))
                eq_refl eq_refl) as H.
  cbv zeta in H. destruct H as (Hrun & _ & _).
  exact Hrun.
Defined.

(** Nobody is called "mallory"; "alice" exists but her password is not
    "guess". *)
Lemma login_failures_identical_witness :
  login strict_verify toy_token t0 (UserLogin.mk "mallory" "guess") db0
  = login strict_verify toy_token t0 (UserLogin.mk "alice" "guess") db0.
Proof.
  exact (proj1 (@login_failures_identical strict_verify toy_token t0 t0
                  (UserLogin.mk "mallory" "guess")
                  (UserLogin.mk "alice" "guess") db0 alice
                  eq_refl eq_refl eq_refl)).
Defined.

(** The same two usernames, with a password that holds a NUL byte:
    "mallory" is answered 401 and "alice" 500. *)
Lemma login_failure_tells_stored_username_witness :
  login strict_verify toy_token t0 (UserLogin.mk "mallory" nul_password) db0
  = (db0, Raises (mkHTTPException 401 "Invalid username or password"))
  /\ login strict_verify toy_token t0 (UserLogin.mk "alice" nul_password) db0
     = (db0, Raises (mkHTTPException 500 "Internal Server Error")).
Proof.
  destruct (@login_failure_tells_stored_username strict_verify toy_token
              t0 t0 (UserLogin.mk "mallory" nul_password)
              (UserLogin.mk "alice" nul_password) db0 alice
              eq_refl eq_refl eq_refl)
    as (Hunknown & Hstored & _).
  split; [exact Hunknown|exact Hstored].
Defined.

(** The chief deletes the lobby, which the round goes through. *)
Lemma delete_patrol_point_not_cascaded_witness :
  Db.routes (after (delete_patrol_point "p-1" chief) db0) = [round]
  /\ In "p-1" (Route.patrol_point_ids round)
  /\ Db.patrol_points (after (delete_patrol_point "p-1" chief) db0)
     = [depot; tower].
Proof.
  destruct (@delete_patrol_point_not_cascaded "p-1" chief alice db0
              "Patrol point deleted successfully" round
              eq_refl (or_introl eq_refl) (or_intror (or_introl eq_refl)))
    as ((Hroutes & _ & _) & _ & _).
  split; [exact Hroutes|]. split; [right; left; reflexivity|reflexivity].
Defined.

(** C6 at a failing input: a registration asking for the role
    "superuser" is accepted and stored as asked; the stored role is
    neither "admin" nor "officer", and the user so created is then
    served every assignment in the store. *)
Theorem register_role_unchecked :
  exists eve,
    register toy_hash "u-3" t0 "s3"
      (UserCreate.mk "eve" "evepw" "Eve E" "superuser" None) db0
    = (Db.set_users (fun c => c ++ [eve])%list db0,
       Returns (UserResponse.mk "u-3" "eve" "Eve E" "superuser" None))
    /\ User.role eve = "superuser"
    /\ User.role eve <> "admin"
    /\ User.role eve <> "officer"
    /\ result (get_route_assignments eve
                 (Db.set_users (fun c => c ++ [eve])%list db0))
       = Returns [alice_round; bob_lost].
Proof.
  exists (User.mk "u-3" "eve" (toy_hash "s3" "evepw") "Eve E" "superuser"
                  None t0).
  repeat split; try reflexivity; discriminate.
Qed.

(** C3 beyond the cap: Alice has 1001 attendance documents under her
    assignment, the one for the lobby last.  Her view of today reports
    the lobby as not completed although an attendance document for (the
    assignment, the lobby) is stored. *)
Lemma get_today_assignment_beyond_cap :
  result (get_today_assignment today alice crowded)
  = Returns (Today (RouteAssignment.set_status "completed" alice_round)
                   round
                   [PatrolPointView.mk depot false;
                    PatrolPointView.mk lobby false;
                    PatrolPointView.mk tower false])
  /\ attended "a-1" "p-1" crowded = true
  /\ Mongo.count_documents (attendance_of "a-1") (Db.attendance crowded)
     = 1001.
Proof. vm_compute. repeat split; reflexivity. Qed.
End AtTheDeployment.

(** ** The further properties at the deployment *)

Section FurtherAtTheDeployment.
Import Scenario.

(** Carol registers and logs in. *)
Lemma register_then_login_witness :
  login strict_verify toy_token t0 (UserLogin.mk "carol" "carolpw")
    (after (register toy_hash "u-3" t0 "s3"
              (UserCreate.mk "carol" "carolpw" "Carol C" "officer" None))
           db0)
  = (after (register toy_hash "u-3" t0 "s3"
              (UserCreate.mk "carol" "carolpw" "Carol C" "officer" None))
           db0,
     Returns (TokenResponse.mk (toy_token "u-3" t0) "bearer"
                (UserResponse.mk "u-3" "carol" "Carol C" "officer" None))).
Proof.
  exact (@register_then_login toy_hash strict_verify toy_token
           "u-3" t0 "s3" t0
           (UserCreate.mk "carol" "carolpw" "Carol C" "officer" None) db0
           (UserResponse.mk "u-3" "carol" "Carol C" "officer" None)
           eq_refl eq_refl).
Defined.

(** Alice's token resolves to Alice. *)
Lemma login_token_resolves_witness :
  exists user,
    get_current_user toy_decode t0 (toy_token "u-1" t0) db0
    = (db0, Returns user)
    /\ User.id user = "u-1".
Proof.
  destruct (@login_token_resolves strict_verify toy_token toy_decode t0 t0
              (UserLogin.mk "alice" "alicepw") db0
              (TokenResponse.mk (toy_token "u-1" t0) "bearer"
                                (user_response alice))
              eq_refl eq_refl)
    as (user & Hrun & Hid & _).
  exists user. split; [exact Hrun|exact Hid].
Defined.

(** Alice, an officer, may not delete a patrol point; the chief, an
    admin, may not check in. *)
Lemma role_gates_witness :
  refused 403 db0 (delete_patrol_point "p-1" alice db0)
  /\ refused 403 db0 (mark_attendance "att-0" t0 lobby_checkin chief db0).
Proof.
  split.
  - destruct (role_gates alice db0) as [Hadmin _].
    destruct Hadmin as (_ & Hdelete & _); [discriminate|].
    apply Hdelete.
  - destruct (role_gates chief db0) as [_ Hofficer].
    destruct Hofficer as (_ & Hmark); [discriminate|].
    apply Hmark.
Defined.

(** The chief's report after Alice's check-in at the lobby. *)
Lemma get_all_attendance_report_witness :
  exists rows,
    get_all_attendance chief
      (after (mark_attendance "att-0" t0 lobby_checkin alice) db0)
    = (after (mark_attendance "att-0" t0 lobby_checkin alice) db0,
       Returns rows)
    /\ rows = [AttendanceReport.mk "att-0" "Alice A" (Some "B-1")
                 "Lobby" "1 Main St" t0 None (Some today)].
Proof.
  destruct (@get_all_attendance_report chief
              (after (mark_attendance "att-0" t0 lobby_checkin alice) db0)
              eq_refl)
    as (rows & Hrun & Hrows & _).
  exists rows. split; [exact Hrun|]. rewrite Hrows. reflexivity.
Defined.

(** No point "p-9", no route "r-9". *)
Lemma delete_absent_witness :
  delete_patrol_point "p-9" chief db0
  = (db0, Raises (mkHTTPException 404 "Patrol point not found"))
  /\ delete_route "r-9" chief db0
     = (db0, Raises (mkHTTPException 404 "Route not found")).
Proof.
  destruct (@delete_absent chief db0 eq_refl) as [Hpoint Hroute].
  split; [exact (Hpoint "p-9" eq_refl)|exact (Hroute "r-9" eq_refl)].
Defined.

(** The chief deletes the lobby twice. *)
Lemma delete_patrol_point_twice_witness :
  delete_patrol_point "p-1" chief (after (delete_patrol_point "p-1" chief) db0)
  = (after (delete_patrol_point "p-1" chief) db0,
     Raises (mkHTTPException 404 "Patrol point not found")).
Proof.
  exact (proj2 (proj2 (@delete_patrol_point_twice "p-1" chief chief db0
                         eq_refl eq_refl eq_refl))).
Defined.

(** The chief creates a point and deletes it again. *)
Lemma create_then_delete_patrol_point_witness :
  delete_patrol_point "p-4" chief
    (after (create_patrol_point "p-4" t0
              (PatrolPointCreate.mk "Yard" "Back yard" "4 Back St" None None)
              chief) db0)
  = (db0, Returns "Patrol point deleted successfully").
Proof.
  exact (@create_then_delete_patrol_point "p-4" t0
           (PatrolPointCreate.mk "Yard" "Back yard" "4 Back St" None None)
           chief chief db0 eq_refl eq_refl eq_refl).
Defined.

(** A fourth point is listed after the three. *)
Lemma create_patrol_point_listed_witness :
  result (get_patrol_points alice
            (after (create_patrol_point "p-4" t0
                      (PatrolPointCreate.mk "Yard" "Back yard" "4 Back St"
                                            None None)
                      chief) db0))
  = Returns [lobby; depot; tower;
             PatrolPoint.mk "p-4" "Yard" "Back yard" "4 Back St" None None t0].
Proof.
  destruct (@create_patrol_point_listed "p-4" t0
              (PatrolPointCreate.mk "Yard" "Back yard" "4 Back St" None None)
              chief alice db0 eq_refl)
    as (_ & _ & Hlisted & _).
  exact (Hlisted (proj1 (Nat.ltb_lt 3 1000) eq_refl)).
Defined.

(** Alice has nothing for the next day; Bob's route is gone. *)
Lemma get_today_assignment_nothing_to_show_witness :
  get_today_assignment "2024-05-02" alice db0
  = (db0, Returns (NoRoute "No route assigned for today"))
  /\ get_today_assignment today bob db0
     = (db0, Raises (mkHTTPException 404 "Route not found")).
Proof.
  split.
  - exact (proj1 (@get_today_assignment_nothing_to_show "2024-05-02" alice
                    db0 eq_refl) eq_refl).
  - exact (proj2 (@get_today_assignment_nothing_to_show today bob db0
                    eq_refl) bob_lost eq_refl eq_refl).
Defined.

(** The chief deletes the round Alice is assigned to. *)
Lemma delete_route_breaks_today_witness :
  get_today_assignment today alice (after (delete_route "r-1" chief) db0)
  = (after (delete_route "r-1" chief) db0,
     Raises (mkHTTPException 404 "Route not found")).
Proof.
  exact (proj2 (proj2 (@delete_route_breaks_today today alice chief db0
                         alice_round eq_refl eq_refl eq_refl eq_refl))).
Defined.

(** A second assignment for Alice today does not show. *)
Lemma second_assignment_same_day_hidden_witness :
  result (get_today_assignment today alice
            (after (create_route_assignment "a-3" t0
                      (RouteAssignmentCreate.mk "u-1" "r-9" today) chief)
                   db0))
  = result (get_today_assignment today alice db0).
Proof.
  exact (@second_assignment_same_day_hidden today alice chief "a-3" t0
           (RouteAssignmentCreate.mk "u-1" "r-9" today) db0 alice_round
           eq_refl eq_refl).
Defined.

(** Alice is given the round for the next day. *)
Lemma new_assignment_view_witness :
  exists ordered_points,
    result (get_today_assignment "2024-05-02" alice
              (after (create_route_assignment "a-3" t0
                        (RouteAssignmentCreate.mk "u-1" "r-1" "2024-05-02")
                        chief) db0))
    = Returns (Today (RouteAssignment.mk "a-3" "u-1" "r-1" "2024-05-02"
                                         "assigned" t0)
                     round ordered_points)
    /\ map (fun v => PatrolPoint.id (PatrolPointView.point v)) ordered_points
       = ["p-2"; "p-1"; "p-3"]
    /\ map PatrolPointView.completed ordered_points = [false; false; false].
Proof.
  destruct (@new_assignment_view "a-3" t0 "2024-05-02" alice chief "r-1"
              db0 round eq_refl eq_refl eq_refl eq_refl eq_refl
              (proj1 (Nat.leb_le 3 1000) eq_refl))
    as (ordered_points & Hrun & Hids & _).
  exists ordered_points.
  split; [exact (f_equal (@snd _ _) Hrun)|]. split; [exact Hids|].
  injection Hrun as <-. reflexivity.
Defined.
(** The three usernames of the deployment are distinct, and stay so when
    "carol" registers. *)
Lemma register_keeps_usernames_unique_witness :
  NoDup (map User.username
           (Db.users
              (after (register toy_hash "u-3" t0 "s3"
                        (UserCreate.mk "carol" "carolpw" "Carol C"
                                       "officer" None))
                     db0))).
Proof.
  apply register_keeps_usernames_unique.
  repeat constructor; simpl; intuition discriminate.
Defined.

(** One check-in stored, a second one made. *)
Lemma mark_attendance_keeps_pairs_unique_witness :
  NoDup (map pair_of
           (Db.attendance
              (after (mark_attendance "att-1" t0
                        (AttendanceCreate.mk "a-1" "p-2" None) alice)
                 (after (mark_attendance "att-0" t0 lobby_checkin alice)
                        db0)))).
Proof.
  apply mark_attendance_keeps_pairs_unique.
  repeat constructor; simpl; intuition discriminate.
Defined.

(** Alice completes the round and then checks in somewhere else. *)
Lemma patrol_completed_stays_witness :
  status_of "a-1"
    (patrol att_id t0 alice "a-1" ["p-2"; "p-1"; "p-3"; "x-1"] 0 db0)
  = Some "completed".
Proof.
  apply (@patrol_completed_stays att_id t0 alice "a-1" round
           ["p-2"; "p-1"; "p-3"] ["x-1"] 0 db0 eq_refl).
  - exists alice_round. split; reflexivity.
  - repeat constructor; simpl; intuition discriminate.
  - intros point_id _. reflexivity.
  - discriminate.
  - reflexivity.
Defined.

(** Alice checks in three times, never on the round. *)
Lemma completed_without_visiting_route_witness :
  status_of "a-1" (patrol att_id t0 alice "a-1" ["x-1"; "x-2"; "x-3"] 0 db0)
  = Some "completed"
  /\ attended "a-1" "p-1"
       (patrol att_id t0 alice "a-1" ["x-1"; "x-2"; "x-3"] 0 db0)
     = false.
Proof.
  destruct (@completed_without_visiting_route att_id t0 alice "a-1" round
              ["x-1"; "x-2"; "x-3"] 0 db0 eq_refl)
    as [Hstatus Hnone].
  - exists alice_round. split; reflexivity.
  - reflexivity.
  - repeat constructor; simpl; intuition discriminate.
  - discriminate.
  - intros point_id Hvisit Hroute. simpl in Hvisit, Hroute.
    intuition (subst; discriminate).
  - simpl. lia.
  - split; [exact Hstatus|]. apply Hnone. simpl. tauto.
Defined.

(** The chief lists the officers: Alice and Bob. *)
Lemma get_officers_lists_officers_witness :
  exists listed,
    get_officers chief db0 = (db0, Returns listed)
    /\ In (user_response alice) listed
    /\ In (user_response bob) listed.
Proof.
  destruct (@get_officers_lists_officers chief db0 eq_refl)
    as (listed & Hrun & _ & Hall).
  exists listed. split; [exact Hrun|].
  assert (Hcap : Mongo.count_documents (fun u => User.role u =? "officer")
                                       (Db.users db0) <= 1000)
    by (vm_compute; lia).
  split; apply (Hall Hcap); simpl; tauto.
Defined.
End FurtherAtTheDeployment.
